(** * Hermes: DataView built-ins and the UTF-16 to UTF-8 support routines

    A shallow embedding of
      - lib/VM/JSLib/DataView.cpp (the DataView constructor, accessors and
        the get<T>/set<T> methods), and
      - the routines of hermes/Support/UTF8.h that
        unittests/Support/UnicodeTest.cpp exercises,
    with the properties the design document states about them. *)

From Stdlib Require Import ZArith List Ascii String Lia Bool.
From stdpp Require Import base gmap list.

Local Open Scope Z_scope.

(** ** Part I: hermes/Support/UTF8.h as seen from UnicodeTest.cpp *)

Module Unicode.

(** Code units (char16_t) and output bytes (unsigned char) are both kept as
    [Z]; the 16-bit and 8-bit ranges are stated where a result needs them. *)
Definition char16 := Z.
Definition uchar := Z.

Definition isHighSurrogate (c : char16) : bool := (0xD800 <=? c) && (c <=? 0xDBFF).
Definition isLowSurrogate (c : char16) : bool := (0xDC00 <=? c) && (c <=? 0xDFFF).
Definition isSurrogate (c : char16) : bool := (0xD800 <=? c) && (c <=? 0xDFFF).

Definition UNICODE_REPLACEMENT_CHARACTER : Z := 0xFFFD.

(** Modelled from the spec: decodeSurrogatePair lives in
    hermes/Support/UTF8.h, which is not under src/.  Section 4.7: a lead
    followed by a trail combines into
    0x10000 + (lead-0xD800)*0x400 + (trail-0xDC00). *)
Definition decodeSurrogatePair (lead trail : char16) : Z :=
  0x10000 + (lead - 0xD800) * 0x400 + (trail - 0xDC00).

(** Modelled from the spec: encodeUTF8 (hermes/Support/UTF8.h) is not under
    src/.  Section 4.7: one byte up to 0x7F, two bytes up to 0x7FF, three
    bytes up to 0xFFFF, four bytes above, "per standard continuation
    encoding": a length-marking lead byte, then 0x80 | six payload bits. *)
Definition encodeUTF8 (cp : Z) : list uchar :=
  if cp <=? 0x7F then [cp]
  else if cp <=? 0x7FF then
    [Z.lor 0xC0 (Z.shiftr cp 6); Z.lor 0x80 (Z.land cp 0x3F)]
  else if cp <=? 0xFFFF then
    [Z.lor 0xE0 (Z.shiftr cp 12);
     Z.lor 0x80 (Z.land (Z.shiftr cp 6) 0x3F);
     Z.lor 0x80 (Z.land cp 0x3F)]
  else
    [Z.lor 0xF0 (Z.shiftr cp 18);
     Z.lor 0x80 (Z.land (Z.shiftr cp 12) 0x3F);
     Z.lor 0x80 (Z.land (Z.shiftr cp 6) 0x3F);
     Z.lor 0x80 (Z.land cp 0x3F)].

(** Modelled from the spec: the body of
    convertUTF16ToUTF8WithSingleSurrogates (hermes/Support/UTF8.h) is not
    under src/; only its test is.  Section 4.7 gives the per-unit encodings
    and says the output is appended to the accumulator.  How the function
    treats surrogates is taken from the assertions of UnicodeTest.cpp
    (lines 37-48), which are the repository's own statement of its results:
    every unit, surrogate or not, paired or not, is encoded on its own. *)
Definition convertUTF16ToUTF8WithSingleSurrogates
    (dest : list uchar) (input : list char16) : list uchar :=
  dest ++ flat_map encodeUTF8 input.

(** Modelled from the spec: the loop of the replacement-mode transcoder
    below (section 4.7), one iteration per recursive call; a valid pair
    consumes two units, every other unit one. *)
Fixpoint replacementLoop (input : list char16) : list uchar :=
  match input with
  | [] => []
  | c :: rest =>
      if isLowSurrogate c then
        encodeUTF8 UNICODE_REPLACEMENT_CHARACTER ++ replacementLoop rest
      else if isHighSurrogate c then
        match rest with
        | d :: rest' =>
            if isLowSurrogate d then
              encodeUTF8 (decodeSurrogatePair c d) ++ replacementLoop rest'
            else
              encodeUTF8 UNICODE_REPLACEMENT_CHARACTER ++ replacementLoop rest
        | [] => encodeUTF8 UNICODE_REPLACEMENT_CHARACTER
        end
      else encodeUTF8 c ++ replacementLoop rest
  end.

(** Modelled from the spec: the body of convertUTF16ToUTF8WithReplacements
    (hermes/Support/UTF8.h) is not under src/.  Section 4.7: a single
    left-to-right pass with one unit of lookahead; a lead immediately
    followed by a trail is combined, any other surrogate becomes U+FFFD, the
    output is appended to the accumulator.  The assertions of
    UnicodeTest.cpp (lines 63-80) agree with it. *)
Definition convertUTF16ToUTF8WithReplacements
    (out : list uchar) (input : list char16) : list uchar :=
  out ++ replacementLoop input.

(** Section 4.7's exact mode taken at its word, for comparison with the
    test: a valid pair is combined into four bytes, a lone surrogate is
    encoded on its own. *)
Fixpoint exactLoop_spec (input : list char16) : list uchar :=
  match input with
  | [] => []
  | c :: rest =>
      if isHighSurrogate c then
        match rest with
        | d :: rest' =>
            if isLowSurrogate d then
              encodeUTF8 (decodeSurrogatePair c d) ++ exactLoop_spec rest'
            else encodeUTF8 c ++ exactLoop_spec rest
        | [] => encodeUTF8 c
        end
      else encodeUTF8 c ++ exactLoop_spec rest
  end.

Definition transcodeExact_spec (out : list uchar) (input : list char16) : list uchar :=
  out ++ exactLoop_spec input.

(** The two lambdas named [convert] in UnicodeTest.cpp: a fresh std::string
    is handed to the transcoder and its bytes are returned. *)
Definition convertSingle (cs : list char16) : list uchar :=
  convertUTF16ToUTF8WithSingleSurrogates [] cs.
Definition convertRepl (cs : list char16) : list uchar :=
  convertUTF16ToUTF8WithReplacements [] cs.

Definition chr (a : Ascii.ascii) : Z := Z.of_N (Ascii.N_of_ascii a).
Arguments chr a%_char.

(** The EXPECT_EQ table of TEST(StringTest,
    UTF16ToUTF8StringWithSingleSurrogates), lines 30-48: (expected, input). *)
Definition singleSurrogateCases : list (list uchar * list char16) :=
  [ ([], []);
    ([chr "a"], [chr "a"]);
    ([chr "a"; chr "b"; chr "c"; 0; chr "d"], [chr "a"; chr "b"; chr "c"; 0; chr "d"]);
    ([chr "a"; chr "b"; chr "c"; 0; chr "d"], [chr "a"; chr "b"; chr "c"; 0; chr "d"]);
    ([chr "e"; 0xCC; 0x81], [chr "e"; 0x0301]);
    ([0xE2; 0x98; 0x83], [0x2603]);
    ([0xED; 0xA0; 0xBD; 0xED; 0xB8; 0xB9], [0xD83D; 0xDE39]);
    ([0xED; 0xA0; 0xBD], [0xD83D]);
    ([chr "a"; 0xED; 0xA0; 0xBD; chr "b"], [chr "a"; 0xD83D; chr "b"]);
    ([chr "a"; 0xED; 0xB8; 0xB9; chr "b"], [chr "a"; 0xDE39; chr "b"]);
    ([chr "a"; 0xED; 0xA0; 0xBD], [chr "a"; 0xD83D]);
    ([chr "a"; 0xED; 0xB8; 0xB9], [chr "a"; 0xDE39]) ].

(** The EXPECT_EQ table of TEST(StringTest,
    UTF16ToUTF8StringWithReplacements), lines 63-80. *)
Definition replacementCases : list (list uchar * list char16) :=
  [ ([], []);
    ([chr "a"], [chr "a"]);
    ([chr "a"; chr "b"; chr "c"; 0; chr "d"], [chr "a"; chr "b"; chr "c"; 0; chr "d"]);
    ([chr "a"; chr "b"; chr "c"; 0; chr "d"], [chr "a"; chr "b"; chr "c"; 0; chr "d"]);
    ([chr "e"; 0xCC; 0x81], [chr "e"; 0x0301]);
    ([0xE2; 0x98; 0x83], [0x2603]);
    ([0xF0; 0x9F; 0x98; 0xB9], [0xD83D; 0xDE39]);
    ([0xEF; 0xBF; 0xBD], [0xD83D]);
    ([chr "a"; 0xEF; 0xBF; 0xBD; chr "b"], [chr "a"; 0xD83D; chr "b"]);
    ([chr "a"; 0xEF; 0xBF; 0xBD; chr "b"], [chr "a"; 0xDE39; chr "b"]);
    ([chr "a"; 0xEF; 0xBF; 0xBD], [chr "a"; 0xD83D]);
    ([chr "a"; 0xEF; 0xBF; 0xBD], [chr "a"; 0xDE39]) ].

(** EXPECT_EQ on two byte vectors. *)
Definition expectEq (a b : list Z) : bool := bool_decide (a = b).

Definition runCases (convert : list char16 -> list uchar)
    (cases : list (list uchar * list char16)) : bool :=
  forallb (fun c => expectEq (fst c) (convert (snd c))) cases.

(** A sequence is well formed when the left-to-right scan meets no lone
    surrogate: every lead is immediately followed by a trail, and a trail
    occurs only there. *)
Fixpoint wellFormed (s : list char16) : bool :=
  match s with
  | [] => true
  | c :: rest =>
      if isHighSurrogate c then
        match rest with
        | d :: rest' => isLowSurrogate d && wellFormed rest'
        | [] => false
        end
      else if isLowSurrogate c then false
      else wellFormed rest
  end.

(** No lead is immediately followed by a trail anywhere in the sequence:
    every surrogate in it is a lone one. *)
Fixpoint noPair (s : list char16) : bool :=
  match s with
  | [] => true
  | c :: rest =>
      match rest with
      | d :: _ => negb (isHighSurrogate c && isLowSurrogate d) && noPair rest
      | [] => true
      end
  end.

Definition noSurrogate (s : list char16) : bool :=
  forallb (fun c => negb (isSurrogate c)) s.

(** What replacement mode emits for one unit that is not half of a pair. *)
Definition replaceUnit (c : char16) : list uchar :=
  if isSurrogate c then [0xEF; 0xBF; 0xBD] else encodeUTF8 c.

(** *** isAllASCII *)

(** Modelled from the spec: the byte loops of isAllASCII below; every
    byte of a run is or-ed into a mask that starts at 0. *)
Definition orBytes (l : list uchar) : Z := fold_left Z.lor l 0.

(** Modelled from the spec: the wide chunk of isAllASCII below, a 32-bit
    load of four consecutive bytes (little-endian host; the test against
    0x80808080 does not depend on the byte order). *)
Definition load32 (b0 b1 b2 b3 : uchar) : Z :=
  Z.lor b0 (Z.lor (Z.shiftl b1 8) (Z.lor (Z.shiftl b2 16) (Z.shiftl b3 24))).

(** Modelled from the spec: the aligned loop of isAllASCII below, four
    bytes at a time while at least four remain.  [None]: a word with a high
    bit was met (return false); [Some tail]: the fewer-than-four bytes left
    for the tail loop. *)
Fixpoint wordLoop (l : list uchar) : option (list uchar) :=
  match l with
  | b0 :: b1 :: b2 :: b3 :: rest =>
      if Z.land (load32 b0 b1 b2 b3) 0x80808080 =? 0 then wordLoop rest else None
  | _ => Some l
  end.

(** Modelled from the spec: the bytes isAllASCII below steps over until
    its cursor, at address [addr], is aligned for a 32-bit load. *)
Definition alignGap (addr : Z) : nat := Z.to_nat ((4 - addr mod 4) mod 4).

(** Modelled from the spec: isAllASCII (hermes/Support/UTF8.h) is not under
    src/; only its test is.  Section 4.8: a predicate over a half-open byte
    range that holds iff every byte is <= 0x7F, with an internal wide-chunk
    fast path that depends on the alignment of the range.  The range is
    given by the address [addr] of its first byte and its contents; the fast
    path is taken in its usual shape: bytes up to the first 4-byte boundary,
    then aligned 32-bit words against 0x80808080, then the bytes left. *)
Definition isAllASCII (addr : Z) (bytes : list uchar) : bool :=
  let afterWords :=
    if (4 <=? Z.of_nat (length bytes)) then
      let k := alignGap addr in
      if Z.land (orBytes (take k bytes)) 0x80 =? 0
      then wordLoop (drop k bytes)
      else None
    else Some bytes in
  match afterWords with
  | None => false
  | Some tail => Z.land (orBytes tail) 0x80 =? 0
  end.

(** The byte-by-byte scan the spec compares against. *)
Definition isAllASCII_naive (bytes : list uchar) : bool :=
  forallb (fun b => b <=? 0x7F) bytes.

(** The bytes between positions [start] and [end_] of an array. *)
Definition slice (arr : list uchar) (start end_ : nat) : list uchar :=
  take (end_ - start) (drop start arr).

Definition isUChar (b : Z) : bool := (0 <=? b) && (b <? 256).

(** The arrays of TEST(StringTest, IsAllASCIITest), lines 84-91. *)
Definition ascii : list uchar := [32; 23; 18].
Definition notAscii : list uchar := [234; 1; 0].
Definition asciiArr : list uchar := [1; 3; 14; 54; 19; 124; 13; 43; 127; 19; 0].
Definition partialAsciiArr : list uchar := [1; 3; 14; 54; 219; 124; 13; 43; 127; 19].
Definition noAsciiArr : list uchar := [129; 153; 175; 201; 219; 231; 214; 255; 255; 130].

(** The two "torture" loops of the test (lines 103-115) for an array placed
    at address [base]: every start <= end <= size, the result compared with
    [expected start end]. *)
Definition torture (base : Z) (arr : list uchar) (expected : nat -> nat -> bool) : bool :=
  forallb (fun start =>
    forallb (fun end_ =>
      Bool.eqb (expected start end_)
               (isAllASCII (base + Z.of_nat start) (slice arr start end_)))
      (seq start (S (length arr) - start)))
    (seq 0 (S (length arr))).

End Unicode.

(** ** Part II: lib/VM/JSLib/DataView.cpp *)

Module DataView.

(** *** Values, cells and the runtime *)

(** Modelled from the spec: hermes/VM/TypedArrays.def, which lists the
    element types the TYPED_ARRAY macro (lines 217-233) instantiates get<T>
    and set<T> for, is not under src/.  Section 6 names the types;
    TYPED_ARRAY_NO_CLAMP (line 232) leaves the clamped one out. *)
Inductive NumKind :=
  Int8 | Int16 | Int32 | Uint8 | Uint16 | Uint32 | Float32 | Float64.

Definition sizeof (T : NumKind) : Z :=
  match T with
  | Int8 | Uint8 => 1
  | Int16 | Uint16 => 2
  | Int32 | Uint32 | Float32 => 4
  | Float64 => 8
  end.

(** A pointer into the garbage-collected heap. *)
Definition GCPointer := nat.

Inductive HermesValue (double : Type) :=
| HVUndefined
| HVBool (b : bool)
| HVNumber (d : double)
| HVString (s : string)
| HVObject (p : GCPointer).
Arguments HVUndefined {double}.
Arguments HVBool {double} b.
Arguments HVNumber {double} d.
Arguments HVString {double} s.
Arguments HVObject {double} p.

(** What a native function can fail with: the two error classes
    DataView.cpp raises, and whatever value user code threw during a
    coercion. *)
Inductive JSError (double : Type) :=
| TypeError (msg : string)
| RangeError (msg : string)
| Thrown (v : HermesValue double).
Arguments TypeError {double} msg.
Arguments RangeError {double} msg.
Arguments Thrown {double} v.

(** CallResult<T>: a value, or ExecutionStatus::EXCEPTION with the error
    the runtime holds. *)
Inductive CallResult (double A : Type) :=
| RETURNED (a : A)
| EXCEPTION (e : JSError double).
Arguments RETURNED {double A} a.
Arguments EXCEPTION {double A} e.

(** Modelled from the spec: JSArrayBuffer (hermes/VM/JSArrayBuffer.h) is not
    under src/.  Section 3: a Buffer owns a contiguous byte region, has a
    byteLength (size) and an attached flag. *)
Record JSArrayBuffer := { data_ : list Z; attached_ : bool }.

Definition size (b : JSArrayBuffer) : Z := Z.of_nat (length (data_ b)).

(** Modelled from the spec: JSDataView (hermes/VM/JSDataView.h) is not under
    src/.  Section 3: a view holds a reference to a Buffer, a byteOffset and
    a byteLength; the reference is null until setBuffer runs. *)
Record JSDataView := { buffer_ : option GCPointer; offset_ : Z; length_ : Z }.

Inductive GCCell :=
| ArrayBufferCell (b : JSArrayBuffer)
| DataViewCell (v : JSDataView)
| ObjectCell.

(** The part of the runtime these functions touch: the heap.  Buffers and
    views are shared through it, so what user code does to a buffer during
    a coercion is seen by the checks that follow. *)
Record Runtime := { heap : gmap GCPointer GCCell }.

Definition getDataView (runtime : Runtime) (p : GCPointer) : option JSDataView :=
  match heap runtime !! p with
  | Some (DataViewCell v) => Some v
  | _ => None
  end.

Definition getArrayBuffer (runtime : Runtime) (p : GCPointer) : option JSArrayBuffer :=
  match heap runtime !! p with
  | Some (ArrayBufferCell b) => Some b
  | _ => None
  end.

(** Modelled from the spec: JSArrayBuffer::detach is not under src/.
    Glossary, Detach: a one-way transition that makes the storage
    inaccessible; the storage is released, so the size reads 0. *)
Definition detach (runtime : Runtime) (p : GCPointer) : Runtime :=
  match getArrayBuffer runtime p with
  | Some _ =>
      {| heap := <[p := ArrayBufferCell {| data_ := []; attached_ := false |}]> (heap runtime) |}
  | None => runtime
  end.

(** The result of toIndex: an integer in [0, 2^53 - 1] (section 4.1). *)
Record Index := {
  indexValue : Z;
  indexInRange : (0 <=? indexValue) && (indexValue <=? 2 ^ 53 - 1) = true
}.

(** The parts of the VM DataView.cpp calls and src/ does not hold, taken as
    parameters.  [toIndex] and [toNumber_RJS] may run arbitrary user code:
    they take the runtime and hand back the runtime that code left. *)
Class Host := {
  (** A JavaScript number (a C++ double). *)
  double : Type;
  (** toIndex (Operations.h), section 4.1. *)
  toIndex : Runtime -> HermesValue double -> Runtime * CallResult double Index;
  (** toNumber_RJS (Operations.h). *)
  toNumber_RJS : Runtime -> HermesValue double -> Runtime * CallResult double double;
  (** toBoolean (Operations.h): no side effects. *)
  toBoolean : HermesValue double -> bool;
  (** JSTypedArray<T, C>::toDestType: the number as a T, given by the bit
      pattern of that T. *)
  toDestType : NumKind -> double -> Z;
  (** SafeNumericEncoder<T>::encode: the T with the given bit pattern, as a
      number value. *)
  SafeNumericEncoder_encode : NumKind -> Z -> HermesValue double;
  (** HermesValue::encodeNumberValue on a size. *)
  encodeNumberValue : Z -> HermesValue double
}.

Section Natives.
Context `{Host}.

Local Abbreviation HV := (HermesValue double).
Local Abbreviation Result := (option (Runtime * CallResult double HV)).

(** NativeArgs: the receiver, new.target and the arguments. *)
Record NativeArgs := {
  thisArg : HV;
  newTarget : HV;
  argv : list HV
}.

Definition isUndefined (v : HV) : bool :=
  match v with HVUndefined => true | _ => false end.

(** getArg / getArgHandle: an absent argument reads as undefined. *)
Definition getArg (args : NativeArgs) (i : nat) : HV :=
  default HVUndefined (argv args !! i).

Definition isConstructorCall (args : NativeArgs) : bool :=
  negb (isUndefined (newTarget args)).

Definition dyncastThis_JSDataView (runtime : Runtime) (args : NativeArgs) : option GCPointer :=
  match thisArg args with
  | HVObject p => match getDataView runtime p with Some _ => Some p | None => None end
  | _ => None
  end.

Definition dyncastArg_JSArrayBuffer (runtime : Runtime) (args : NativeArgs) (i : nat)
    : option GCPointer :=
  match getArg args i with
  | HVObject p => match getArrayBuffer runtime p with Some _ => Some p | None => None end
  | _ => None
  end.

Definition raiseTypeError {A} (runtime : Runtime) (msg : string)
    : Runtime * CallResult double A :=
  (runtime, EXCEPTION (TypeError msg)).

Definition raiseRangeError {A} (runtime : Runtime) (msg : string)
    : Runtime * CallResult double A :=
  (runtime, EXCEPTION (RangeError msg)).

(** Unsigned 64-bit addition, as `byteOffset + sizeof(T)` is computed. *)
Definition uint64_add (a b : Z) : Z := (a + b) mod 2 ^ 64.

(** *** The members of JSDataView the natives call *)

(** self->attached(runtime): the flag of the buffer the view refers to, read
    from the heap as it is now.  [None]: the view has no buffer, or the
    reference does not lead to a buffer (C++ gives no behaviour). *)
Definition attached (runtime : Runtime) (view : JSDataView) : option bool :=
  p ← buffer_ view;
  b ← getArrayBuffer runtime p;
  Some (attached_ b).

(** The bytes of a T in memory order, from its bit pattern. *)
Fixpoint toLeBytes (n : nat) (v : Z) : list Z :=
  match n with
  | O => []
  | S k => v mod 256 :: toLeBytes k (v / 256)
  end.

Definition toBytes (T : NumKind) (v : Z) (littleEndian : bool) : list Z :=
  let le := toLeBytes (Z.to_nat (sizeof T)) v in
  if littleEndian then le else rev le.

Fixpoint ofLeBytes (l : list Z) : Z :=
  match l with
  | [] => 0
  | b :: rest => b + 256 * ofLeBytes rest
  end.

Definition ofBytes (l : list Z) (littleEndian : bool) : Z :=
  ofLeBytes (if littleEndian then l else rev l).

(** Modelled from the spec: JSDataView::get<T> is not under src/.  Section
    4.5 step 6 and section 4.2: read sizeof(T) bytes at
    view.byteOffset + localOffset and reorder them by endianness.  [None]
    when the buffer is missing or detached, or the bytes are not all inside
    its storage: the C++ read has no defined result there. *)
Definition JSDataView_get (T : NumKind) (runtime : Runtime) (view : JSDataView)
    (offset : Z) (littleEndian : bool) : option Z :=
  p ← buffer_ view;
  b ← getArrayBuffer runtime p;
  if attached_ b && (0 <=? offset_ view + offset) then
    bytes ← sublist_lookup (Z.to_nat (offset_ view + offset)) (Z.to_nat (sizeof T)) (data_ b);
    Some (ofBytes bytes littleEndian)
  else None.

(** Modelled from the spec: JSDataView::set<T> is not under src/.  Section
    4.6 step 7: the sizeof(T) bytes of the value, in the chosen order, are
    stored at view.byteOffset + localOffset.  [None] under the same
    conditions as for get<T>. *)
Definition JSDataView_set (T : NumKind) (runtime : Runtime) (view : JSDataView)
    (offset : Z) (value : Z) (littleEndian : bool) : option Runtime :=
  p ← buffer_ view;
  b ← getArrayBuffer runtime p;
  if attached_ b && (0 <=? offset_ view + offset)
     && (offset_ view + offset + sizeof T <=? size b) then
    Some {| heap :=
      <[p := ArrayBufferCell
               {| data_ := list_inserts (Z.to_nat (offset_ view + offset))
                             (toBytes T value littleEndian) (data_ b);
                  attached_ := attached_ b |}]> (heap runtime) |}
  else None.

(** Modelled from the spec: JSDataView::setBuffer is not under src/.
    Section 4.3 step 5: store (buffer reference, offset, length) on the
    view.  [None] when [self] is not a view. *)
Definition setBuffer (runtime : Runtime) (self buffer : GCPointer)
    (offset length : Z) : option Runtime :=
  _ ← getDataView runtime self;
  Some {| heap :=
    <[self := DataViewCell {| buffer_ := Some buffer; offset_ := offset; length_ := length |}]>
      (heap runtime) |}.

(** *** DataView.prototype accessors (ES6 24.2.4.1 - 24.2.4.3) *)

Definition dataViewPrototypeBuffer (runtime : Runtime) (args : NativeArgs) : Result :=
  match dyncastThis_JSDataView runtime args with
  | None =>
      Some (raiseTypeError runtime
        "DataView.prototype.buffer called on a non DataView object")
  | Some self =>
      view ← getDataView runtime self;
      buffer ← buffer_ view;
      Some (runtime, RETURNED (HVObject buffer))
  end.

Definition dataViewPrototypeByteLength (runtime : Runtime) (args : NativeArgs) : Result :=
  match dyncastThis_JSDataView runtime args with
  | None =>
      Some (raiseTypeError runtime
        "DataView.prototype.byteLength called on a non DataView object")
  | Some self =>
      view ← getDataView runtime self;
      Some (runtime, RETURNED (encodeNumberValue (length_ view)))
  end.

Definition dataViewPrototypeByteOffset (runtime : Runtime) (args : NativeArgs) : Result :=
  match dyncastThis_JSDataView runtime args with
  | None =>
      Some (raiseTypeError runtime
        "DataView.prototype.byteOffset called on a non DataView object")
  | Some self =>
      view ← getDataView runtime self;
      Some (runtime, RETURNED (encodeNumberValue (offset_ view)))
  end.

(** *** get<T> and set<T> (ES6 24.2.4.5 - 24.2.4.20) *)

Definition dataViewPrototypeGet (T : NumKind) (runtime : Runtime) (args : NativeArgs)
    : Result :=
  match dyncastThis_JSDataView runtime args with
  | None =>
      Some (raiseTypeError runtime
        "DataView.prototype.get<Type>() called on a non DataView object")
  | Some self =>
      let '(runtime, res) := toIndex runtime (getArg args 0) in
      match res with
      | EXCEPTION e => Some (runtime, EXCEPTION e)
      | RETURNED res =>
          let byteOffset := indexValue res in
          let littleEndian := toBoolean (getArg args 1) in
          view ← getDataView runtime self;
          isAttached ← attached runtime view;
          if negb isAttached then
            Some (raiseTypeError runtime
              "DataView.prototype.get<Type>() called on a detached ArrayBuffer")
          else if uint64_add byteOffset (sizeof T) >? length_ view then
            Some (raiseRangeError runtime
              "DataView.prototype.get<Type>(): Cannot read that many bytes")
          else
            bits ← JSDataView_get T runtime view byteOffset littleEndian;
            Some (runtime, RETURNED (SafeNumericEncoder_encode T bits))
      end
  end.

Definition dataViewPrototypeSet (T : NumKind) (runtime : Runtime) (args : NativeArgs)
    : Result :=
  match dyncastThis_JSDataView runtime args with
  | None =>
      Some (raiseTypeError runtime
        "DataView.prototype.set<Type>() called on a non DataView object")
  | Some self =>
      let '(runtime, res) := toIndex runtime (getArg args 0) in
      match res with
      | EXCEPTION e => Some (runtime, EXCEPTION e)
      | RETURNED res =>
          let byteOffset := indexValue res in
          let littleEndian := toBoolean (getArg args 2) in
          let '(runtime, res) := toNumber_RJS runtime (getArg args 1) in
          match res with
          | EXCEPTION e => Some (runtime, EXCEPTION e)
          | RETURNED number =>
              view ← getDataView runtime self;
              isAttached ← attached runtime view;
              if negb isAttached then
                Some (raiseTypeError runtime
                  "DataView.prototype.set<Type> called on a detached ArrayBuffer")
              else
                let value := toDestType T number in
                if uint64_add byteOffset (sizeof T) >? length_ view then
                  Some (raiseRangeError runtime
                    "DataView.prototype.set<Type>(): Cannot write that many bytes")
                else
                  runtime ← JSDataView_set T runtime view byteOffset value littleEndian;
                  Some (runtime, RETURNED HVUndefined)
          end
      end
  end.

(** *** The constructor (ES 2018 24.3.2.1) *)

(** args.vmcastThis<JSDataView>(): the receiver of a constructor call is the
    freshly allocated view; anything else fails the cast's assertion. *)
Definition vmcastThis_JSDataView (runtime : Runtime) (args : NativeArgs) : option GCPointer :=
  dyncastThis_JSDataView runtime args.

(** offset is a uint64_t, bufferByteLength a 32-bit size and viewByteLength
    a double.  toIndex bounds offset and viewByteLength by 2^53 - 1, so
    every comparison below has the same result on the integers: the only
    inexact operation, the double sum offset + viewByteLength, is inexact
    only above 2^53, where it still exceeds every buffer size. *)
Definition dataViewConstructor (runtime : Runtime) (args : NativeArgs) : Result :=
  if negb (isConstructorCall args) then
    Some (raiseTypeError runtime
      "DataView() called in function context instead of constructor")
  else
    self ← vmcastThis_JSDataView runtime args;
    let buffer := dyncastArg_JSArrayBuffer runtime args 0 in
    let byteLength := getArg args 2 in
    match buffer with
    | None =>
        Some (raiseTypeError runtime
          "new DataView(buffer, [byteOffset], [byteLength]): buffer must be an ArrayBuffer")
    | Some buffer =>
        let '(runtime, res) := toIndex runtime (getArg args 1) in
        match res with
        | EXCEPTION e => Some (runtime, EXCEPTION e)
        | RETURNED res =>
            let offset := indexValue res in
            b ← getArrayBuffer runtime buffer;
            let bufferByteLength := size b in
            if offset >? bufferByteLength then
              Some (raiseRangeError runtime
                "new DataView(buffer, [byteOffset], [byteLength]): byteOffset must be <= the buffer's byte length")
            else if isUndefined byteLength then
              let viewByteLength := bufferByteLength - offset in
              runtime ← setBuffer runtime self buffer offset viewByteLength;
              Some (runtime, RETURNED (thisArg args))
            else
              let '(runtime, res2) := toIndex runtime byteLength in
              match res2 with
              | EXCEPTION e => Some (runtime, EXCEPTION e)
              | RETURNED res2 =>
                  let viewByteLength := indexValue res2 in
                  if offset + viewByteLength >? bufferByteLength then
                    Some (raiseRangeError runtime
                      "new DataView(buffer, [byteOffset], [byteLength]): byteOffset + byteLength must be <= the length of the buffer")
                  else
                    runtime ← setBuffer runtime self buffer offset viewByteLength;
                    Some (runtime, RETURNED (thisArg args))
              end
        end
    end.

(** *** The spec's error taxonomy (section 7), as the errors raised above *)

Definition ReceiverTypeError (name : string) : JSError double :=
  TypeError ("DataView.prototype." ++ name ++ " called on a non DataView object").

Definition DetachedBufferError_get : JSError double :=
  TypeError "DataView.prototype.get<Type>() called on a detached ArrayBuffer".
Definition DetachedBufferError_set : JSError double :=
  TypeError "DataView.prototype.set<Type> called on a detached ArrayBuffer".

Definition OutOfBoundsError_get : JSError double :=
  RangeError "DataView.prototype.get<Type>(): Cannot read that many bytes".
Definition OutOfBoundsError_set : JSError double :=
  RangeError "DataView.prototype.set<Type>(): Cannot write that many bytes".

Definition ConstructionTypeError : JSError double :=
  TypeError "new DataView(buffer, [byteOffset], [byteLength]): buffer must be an ArrayBuffer".

Definition ConstructionRangeError_length : JSError double :=
  RangeError "new DataView(buffer, [byteOffset], [byteLength]): byteOffset + byteLength must be <= the length of the buffer".

(** *** The steps of set<T> as the design document lists them (section 4.6)

    One constructor per way the operation can end: the five failing steps,
    each leaving the runtime as the coercions that ran left it, and the
    write, which replaces exactly sizeof(T) bytes of the buffer. *)
Inductive SetSpec (T : NumKind) (runtime : Runtime) (args : NativeArgs)
  : Runtime -> CallResult double HV -> Prop :=
| SetReceiverFails :
    dyncastThis_JSDataView runtime args = None ->
    SetSpec T runtime args runtime (EXCEPTION (ReceiverTypeError "set<Type>()"))
| SetOffsetFails self r1 e :
    dyncastThis_JSDataView runtime args = Some self ->
    toIndex runtime (getArg args 0) = (r1, EXCEPTION e) ->
    SetSpec T runtime args r1 (EXCEPTION e)
| SetValueFails self r1 idx r2 e :
    dyncastThis_JSDataView runtime args = Some self ->
    toIndex runtime (getArg args 0) = (r1, RETURNED idx) ->
    toNumber_RJS r1 (getArg args 1) = (r2, EXCEPTION e) ->
    SetSpec T runtime args r2 (EXCEPTION e)
| SetDetached self r1 idx r2 number view :
    dyncastThis_JSDataView runtime args = Some self ->
    toIndex runtime (getArg args 0) = (r1, RETURNED idx) ->
    toNumber_RJS r1 (getArg args 1) = (r2, RETURNED number) ->
    getDataView r2 self = Some view ->
    attached r2 view = Some false ->
    SetSpec T runtime args r2 (EXCEPTION DetachedBufferError_set)
| SetOutOfBounds self r1 idx r2 number view :
    dyncastThis_JSDataView runtime args = Some self ->
    toIndex runtime (getArg args 0) = (r1, RETURNED idx) ->
    toNumber_RJS r1 (getArg args 1) = (r2, RETURNED number) ->
    getDataView r2 self = Some view ->
    attached r2 view = Some true ->
    indexValue idx + sizeof T > length_ view ->
    SetSpec T runtime args r2 (EXCEPTION OutOfBoundsError_set)
| SetWrites self r1 idx r2 number view p b :
    dyncastThis_JSDataView runtime args = Some self ->
    toIndex runtime (getArg args 0) = (r1, RETURNED idx) ->
    toNumber_RJS r1 (getArg args 1) = (r2, RETURNED number) ->
    getDataView r2 self = Some view ->
    buffer_ view = Some p ->
    getArrayBuffer r2 p = Some b ->
    attached_ b = true ->
    indexValue idx + sizeof T <= length_ view ->
    0 <= offset_ view + indexValue idx ->
    offset_ view + indexValue idx + sizeof T <= size b ->
    SetSpec T runtime args
      {| heap :=
           <[p := ArrayBufferCell
                    {| data_ :=
                         take (Z.to_nat (offset_ view + indexValue idx)) (data_ b)
                         ++ toBytes T (toDestType T number) (toBoolean (getArg args 2))
                         ++ drop (Z.to_nat (offset_ view + indexValue idx)
                                  + Z.to_nat (sizeof T)) (data_ b);
                       attached_ := true |}]> (heap r2) |}
      (RETURNED HVUndefined).

(** Section 3: the window of a view lies inside the storage of its
    buffer. *)
Definition viewInBuffer (view : JSDataView) (b : JSArrayBuffer) : Prop :=
  0 <= offset_ view /\ 0 <= length_ view /\ offset_ view + length_ view <= size b.

(** *** The runtimes the coercions leave, and what the checks maintain *)

(** The runtime set<T> makes its checks in: the one it was called in when
    the receiver check fails, the one the offset coercion left when that
    coercion throws, and otherwise the one the value coercion left. *)
Definition coercedBySet (runtime : Runtime) (args : NativeArgs) : Runtime :=
  match dyncastThis_JSDataView runtime args with
  | None => runtime
  | Some _ =>
      let '(r1, res) := toIndex runtime (getArg args 0) in
      match res with
      | EXCEPTION _ => r1
      | RETURNED _ => fst (toNumber_RJS r1 (getArg args 1))
      end
  end.

(** The runtime the constructor stores the view in, when it gets that far:
    the one the offset coercion left if the length argument is undefined,
    the one the length coercion left otherwise. *)
Definition coercedByConstructor (runtime : Runtime) (args : NativeArgs) : Runtime :=
  let r1 := fst (toIndex runtime (getArg args 1)) in
  if isUndefined (getArg args 2) then r1
  else fst (toIndex r1 (getArg args 2)).

Definition viewInBufferb (view : JSDataView) (b : JSArrayBuffer) : bool :=
  (0 <=? offset_ view) && (0 <=? length_ view)
  && (offset_ view + length_ view <=? size b).

(** A view is in order when it has no buffer yet (between allocation and
    setBuffer), or its reference leads to a buffer that is detached or
    holds the whole window of the view. *)
Definition viewOK (runtime : Runtime) (view : JSDataView) : bool :=
  match buffer_ view with
  | None => true
  | Some p =>
      match getArrayBuffer runtime p with
      | None => false
      | Some b => implb (attached_ b) (viewInBufferb view b)
      end
  end.

Definition cellOK (runtime : Runtime) (cell : GCCell) : bool :=
  match cell with
  | DataViewCell view => viewOK runtime view
  | _ => true
  end.

(** Every view of the heap is in order. *)
Definition heapOK (runtime : Runtime) : Prop :=
  map_Forall (fun (_ : GCPointer) cell => cellOK runtime cell = true) (heap runtime).

End Natives.

End DataView.

(** ** A small host for the examples

    Numbers are integers or NaN ([None]); the two float kinds are given the
    integer codec, which is all the examples need.  The user program is one
    object whose valueOf detaches a buffer and returns a number. *)

Module Scenario.
Import DataView.

Definition num := option Z.

Record Script := { obj : GCPointer; victim : GCPointer; result : Z }.

Definition mkIndex (n : Z) : option Index :=
  (if (0 <=? n) && (n <=? 2 ^ 53 - 1) as ok
      return ((0 <=? n) && (n <=? 2 ^ 53 - 1) = ok -> option Index)
   then fun H => Some {| indexValue := n; indexInRange := H |}
   else fun _ => None) eq_refl.

Definition index0 : Index := {| indexValue := 0; indexInRange := eq_refl |}.

(** ToNumber: primitives convert without effects; the scripted object runs
    its valueOf. *)
Definition valueOf (sc : Script) (runtime : Runtime) (v : HermesValue num) : Runtime * num :=
  match v with
  | HVUndefined => (runtime, None)
  | HVBool b => (runtime, Some (if b then 1 else 0))
  | HVNumber d => (runtime, d)
  | HVString _ => (runtime, None)
  | HVObject p =>
      if decide (p = obj sc) then (detach runtime (victim sc), Some (result sc))
      else (runtime, None)
  end.

Definition scriptToIndex (sc : Script) (runtime : Runtime) (v : HermesValue num)
    : Runtime * CallResult num Index :=
  let '(runtime, d) := valueOf sc runtime v in
  match d with
  | None => (runtime, RETURNED index0)
  | Some n =>
      match mkIndex n with
      | Some i => (runtime, RETURNED i)
      | None => (runtime, EXCEPTION (RangeError "The value given for the index must be between 0 and 2 ^ 53 - 1"))
      end
  end.

Definition scriptToNumber (sc : Script) (runtime : Runtime) (v : HermesValue num)
    : Runtime * CallResult num num :=
  let '(runtime, d) := valueOf sc runtime v in (runtime, RETURNED d).

Definition scriptToBoolean (v : HermesValue num) : bool :=
  match v with
  | HVUndefined => false
  | HVBool b => b
  | HVNumber (Some n) => negb (n =? 0)
  | HVNumber None => false
  | HVString s => negb (String.eqb s EmptyString)
  | HVObject _ => true
  end.

Definition isSigned (T : NumKind) : bool :=
  match T with Int8 | Int16 | Int32 => true | _ => false end.

Definition scriptToDestType (T : NumKind) (d : num) : Z :=
  match d with
  | Some n => n mod 2 ^ (8 * sizeof T)
  | None => 0
  end.

Definition scriptEncode (T : NumKind) (bits : Z) : HermesValue num :=
  HVNumber (Some (if isSigned T && (2 ^ (8 * sizeof T - 1) <=? bits)
                  then bits - 2 ^ (8 * sizeof T) else bits)).

Definition scriptHost (sc : Script) : Host := {|
  double := num;
  toIndex := scriptToIndex sc;
  toNumber_RJS := scriptToNumber sc;
  toBoolean := scriptToBoolean;
  toDestType := scriptToDestType;
  SafeNumericEncoder_encode := scriptEncode;
  encodeNumberValue := fun n => HVNumber (Some n)
|}.

(** The heap of the examples: an attached 8-byte buffer at 1, a freshly
    allocated view at 2, the scripted object at 3, a view of the whole
    buffer at 4. *)
Definition buffer8 : JSArrayBuffer :=
  {| data_ := [1; 2; 3; 4; 5; 6; 7; 8]; attached_ := true |}.

Definition freshView : JSDataView := {| buffer_ := None; offset_ := 0; length_ := 0 |}.
Definition wholeView : JSDataView := {| buffer_ := Some 1%nat; offset_ := 0; length_ := 8 |}.

Definition runtime0 : Runtime :=
  {| heap := <[1%nat := ArrayBufferCell buffer8]>
            (<[2%nat := DataViewCell freshView]>
            (<[3%nat := ObjectCell]>
            (<[4%nat := DataViewCell wholeView]> ∅))) |}.

(** valueOf of object 3 detaches buffer 1 and returns 8. *)
Definition detacher : Script := {| obj := 3%nat; victim := 1%nat; result := 8 |}.
Definition host0 : Host := scriptHost detacher.

Definition n (z : Z) : HermesValue (@double host0) := HVNumber (Some z).

Definition call (this : HermesValue (@double host0))
    (argv : list (HermesValue (@double host0))) : @NativeArgs host0 :=
  {| thisArg := this; newTarget := HVUndefined; argv := argv |}.

Definition construct (this : HermesValue (@double host0))
    (argv : list (HermesValue (@double host0))) : @NativeArgs host0 :=
  {| thisArg := this; newTarget := HVObject 0%nat; argv := argv |}.

Definition index6 : Index := {| indexValue := 6; indexInRange := eq_refl |}.
Definition index7 : Index := {| indexValue := 7; indexInRange := eq_refl |}.
Definition index8 : Index := {| indexValue := 8; indexInRange := eq_refl |}.

(** The runtime after `new DataView(buffer, 8)` on the 8-byte buffer: view 2
    has length 0. *)
Definition emptyView : JSDataView :=
  {| buffer_ := Some 1%nat; offset_ := 8; length_ := 0 |}.
Definition runtime9 : Runtime :=
  {| heap := <[2%nat := DataViewCell emptyView]> (heap runtime0) |}.

(** The runtime after `new DataView(buffer, 0, obj)` where obj.valueOf
    detaches the buffer and returns 8: view 2 has length 8 over a buffer of
    length 0. *)
Definition staleView : JSDataView :=
  {| buffer_ := Some 1%nat; offset_ := 0; length_ := 8 |}.
Definition runtime3 : Runtime :=
  {| heap := <[2%nat := DataViewCell staleView]> (heap (detach runtime0 1%nat)) |}.

(** The runtime after setInt16(6, -2) through view 4: the last two bytes
    of buffer 1 are 0xFF 0xFE. *)
Definition runtimeAfterSet : Runtime :=
  {| heap := <[1%nat := ArrayBufferCell
                {| data_ := [1; 2; 3; 4; 5; 6; 0xFF; 0xFE]; attached_ := true |}]>
             (heap runtime0) |}.

Definition index2 : Index := {| indexValue := 2; indexInRange := eq_refl |}.

(** The largest index toIndex returns. *)
Definition indexMax : Index := {| indexValue := 2 ^ 53 - 1; indexInRange := eq_refl |}.

(** Buffer 1 once detached. *)
Definition detached1 : JSArrayBuffer := {| data_ := []; attached_ := false |}.

(** The runtime after `new DataView(buffer, 2)`: view 2 covers the last six
    bytes of buffer 1. *)
Definition tailView : JSDataView :=
  {| buffer_ := Some 1%nat; offset_ := 2; length_ := 6 |}.
Definition runtimeTail : Runtime :=
  {| heap := <[2%nat := DataViewCell tailView]> (heap runtime0) |}.

End Scenario.

(** ** Part III: properties of the transcoders and of isAllASCII *)

Module UnicodeFacts.
Import Unicode.

Lemma surrogate_split (c : char16) :
  isSurrogate c = isHighSurrogate c || isLowSurrogate c.
Proof.
  unfold isSurrogate, isHighSurrogate, isLowSurrogate.
  destruct (Z.leb_spec 0xD800 c), (Z.leb_spec c 0xDBFF), (Z.leb_spec 0xDC00 c),
    (Z.leb_spec c 0xDFFF); simpl; try reflexivity; lia.
Qed.

Lemma replacement_bytes :
  encodeUTF8 UNICODE_REPLACEMENT_CHARACTER = [0xEF; 0xBF; 0xBD].
Proof. reflexivity. Qed.

(** A surrogate encoded on its own takes the three-byte form, and its first
    byte is 0xED. *)
Lemma encodeUTF8_surrogate (c : char16) :
  isSurrogate c = true ->
  encodeUTF8 c =
    [0xED; Z.lor 0x80 (Z.land (Z.shiftr c 6) 0x3F); Z.lor 0x80 (Z.land c 0x3F)].
Proof.
  unfold isSurrogate. intros Hc. apply andb_true_iff in Hc as [Hlo Hhi].
  apply Z.leb_le in Hlo, Hhi. unfold encodeUTF8.
  destruct (Z.leb_spec c 0x7F); [lia|].
  destruct (Z.leb_spec c 0x7FF); [lia|].
  destruct (Z.leb_spec c 0xFFFF); [|lia].
  assert (Hq : Z.shiftr c 12 = 13).
  { rewrite Z.shiftr_div_pow2 by lia. change (2 ^ 12) with 4096. symmetry.
    apply (Z.div_unique c 4096 13 (c - 13 * 4096)); lia. }
  rewrite Hq. reflexivity.
Qed.

(** A combined pair is above 0xFFFF, so it takes the four-byte form, whose
    first byte is one of 0xF0 .. 0xF3. *)
Lemma decodeSurrogatePair_range (lead trail : char16) :
  isHighSurrogate lead = true -> isLowSurrogate trail = true ->
  0x10000 <= decodeSurrogatePair lead trail <= 0x10FFFF.
Proof.
  unfold isHighSurrogate, isLowSurrogate, decodeSurrogatePair.
  intros H1 H2. apply andb_true_iff in H1 as [? ?], H2 as [? ?].
  rewrite !Z.leb_le in *. lia.
Qed.

Lemma encodeUTF8_supplementary (cp : Z) :
  0x10000 <= cp <= 0x10FFFF ->
  encodeUTF8 cp =
    [Z.lor 0xF0 (Z.shiftr cp 18);
     Z.lor 0x80 (Z.land (Z.shiftr cp 12) 0x3F);
     Z.lor 0x80 (Z.land (Z.shiftr cp 6) 0x3F);
     Z.lor 0x80 (Z.land cp 0x3F)]
  /\ 0xF0 <= Z.lor 0xF0 (Z.shiftr cp 18) <= 0xF4.
Proof.
  intros Hcp. unfold encodeUTF8.
  destruct (Z.leb_spec cp 0x7F); [lia|].
  destruct (Z.leb_spec cp 0x7FF); [lia|].
  destruct (Z.leb_spec cp 0xFFFF); [lia|].
  split; [reflexivity|].
  rewrite Z.shiftr_div_pow2 by lia. change (2 ^ 18) with 262144.
  assert (Hk : 0 <= cp / 262144 <= 4).
  { split; [apply Z.div_pos; lia|].
    apply Z.lt_succ_r, Z.div_lt_upper_bound; lia. }
  assert (Hcases : cp / 262144 = 0 \/ cp / 262144 = 1 \/ cp / 262144 = 2
                   \/ cp / 262144 = 3 \/ cp / 262144 = 4) by lia.
  destruct Hcases as [-> | [-> | [-> | [-> | ->]]]]; split; vm_compute; discriminate.
Qed.

Lemma replacementLoop_pair (lead trail : char16) (rest : list char16) :
  isHighSurrogate lead = true -> isLowSurrogate trail = true ->
  replacementLoop (lead :: trail :: rest) =
    encodeUTF8 (decodeSurrogatePair lead trail) ++ replacementLoop rest.
Proof.
  intros Hl Ht. simpl. rewrite Ht, Hl.
  destruct (isLowSurrogate lead) eqn:E; [|reflexivity].
  unfold isHighSurrogate, isLowSurrogate in *.
  apply andb_true_iff in Hl as [? ?], E as [? ?]. rewrite !Z.leb_le in *. lia.
Qed.

Lemma high_not_low (c : char16) :
  isHighSurrogate c = true -> isLowSurrogate c = false.
Proof.
  unfold isHighSurrogate, isLowSurrogate. intros H.
  apply andb_true_iff in H as [? ?]. rewrite !Z.leb_le in *.
  apply andb_false_iff. left. apply Z.leb_gt. lia.
Qed.

(** The first byte replacement mode emits for a sequence that starts with a
    surrogate is never 0xED. *)
Lemma replacementLoop_surrogate_head (c : char16) (rest : list char16) :
  isSurrogate c = true ->
  exists b tl, replacementLoop (c :: rest) = b :: tl /\ b <> 0xED.
Proof.
  intros Hc. rewrite surrogate_split in Hc. cbn [replacementLoop].
  destruct (isLowSurrogate c) eqn:El.
  - rewrite replacement_bytes. eexists _, _. split; [reflexivity | lia].
  - simpl in Hc. rewrite orb_false_r in Hc. rewrite Hc.
    destruct rest as [|d rest'].
    + rewrite replacement_bytes. eexists _, _. split; [reflexivity | lia].
    + destruct (isLowSurrogate d) eqn:Ed.
      * destruct (encodeUTF8_supplementary (decodeSurrogatePair c d)) as [-> Hb].
        { apply decodeSurrogatePair_range; assumption. }
        eexists _, _. split; [reflexivity | lia].
      * rewrite replacement_bytes. eexists _, _. split; [reflexivity | lia].
Qed.

Lemma replacementLoop_plain (c : char16) (rest : list char16) :
  isSurrogate c = false ->
  replacementLoop (c :: rest) = encodeUTF8 c ++ replacementLoop rest.
Proof.
  rewrite surrogate_split. intros Hc. apply orb_false_iff in Hc as [Hh Hl].
  simpl. rewrite Hl, Hh. reflexivity.
Qed.

Lemma loops_agree_iff (s : list char16) :
  flat_map encodeUTF8 s = replacementLoop s <-> noSurrogate s = true.
Proof.
  induction s as [|c rest IH]; [simpl; tauto|].
  unfold noSurrogate in *. cbn [forallb flat_map].
  destruct (isSurrogate c) eqn:Hc.
  - split; [|simpl; discriminate].
    intros Heq. exfalso.
    destruct (replacementLoop_surrogate_head c rest Hc) as (b & tl & Hr & Hb).
    rewrite Hr, (encodeUTF8_surrogate c Hc) in Heq. simpl in Heq.
    injection Heq as Hhead _. congruence.
  - rewrite (replacementLoop_plain c rest Hc). simpl. rewrite <- IH.
    split; [apply app_inv_head | intros ->; reflexivity].
Qed.

(** *** isAllASCII against the byte-by-byte scan *)

(** The bit tests of the fast path, checked on every byte value and every
    position of a byte inside a 32-bit word. *)
Definition highBitChecks : bool :=
  forallb (fun n =>
    let b := Z.of_nat n in
    Bool.eqb (Z.land b 0x80 =? 0) (b <=? 0x7F)
    && forallb (fun k => Bool.eqb (Z.land (Z.shiftl b k) 0x80808080 =? 0) (b <=? 0x7F))
         [0; 8; 16; 24])
    (seq 0 256).

Lemma highBitChecks_ok : highBitChecks = true.
Proof. vm_compute. reflexivity. Qed.

Lemma uchar_checks (b : uchar) :
  isUChar b = true ->
  (Z.land b 0x80 =? 0) = (b <=? 0x7F)
  /\ forall k, In k [0; 8; 16; 24] ->
       (Z.land (Z.shiftl b k) 0x80808080 =? 0) = (b <=? 0x7F).
Proof.
  unfold isUChar. intros Hb. apply andb_true_iff in Hb as [H0 H1].
  apply Z.leb_le in H0. apply Z.ltb_lt in H1.
  pose proof highBitChecks_ok as Hall. unfold highBitChecks in Hall.
  rewrite forallb_forall in Hall.
  specialize (Hall (Z.to_nat b)).
  rewrite Z2Nat.id in Hall by assumption.
  assert (Hin : In (Z.to_nat b) (seq 0 256)) by (apply in_seq; lia).
  apply Hall in Hin. apply andb_true_iff in Hin as [Hbyte Hword].
  split; [apply Bool.eqb_prop; exact Hbyte|].
  intros k Hk. rewrite forallb_forall in Hword.
  apply Bool.eqb_prop, Hword, Hk.
Qed.

Lemma land_lor_zero (a b m : Z) :
  (Z.land (Z.lor a b) m =? 0) = (Z.land a m =? 0) && (Z.land b m =? 0).
Proof.
  rewrite Z.land_lor_distr_l.
  destruct (Z.eqb_spec (Z.land a m) 0) as [Ha|Ha],
           (Z.eqb_spec (Z.land b m) 0) as [Hb|Hb]; simpl;
    try (apply Z.eqb_eq, Z.lor_eq_0_iff; tauto);
    apply Z.eqb_neq; rewrite Z.lor_eq_0_iff; tauto.
Qed.

Lemma orBytes_acc (l : list uchar) (a : Z) :
  forallb isUChar l = true ->
  (Z.land (fold_left Z.lor l a) 0x80 =? 0)
  = (Z.land a 0x80 =? 0) && isAllASCII_naive l.
Proof.
  revert a. induction l as [|b l IH]; intros a Hl; simpl.
  - rewrite andb_true_r. reflexivity.
  - simpl in Hl. apply andb_true_iff in Hl as [Hb Hl].
    rewrite (IH _ Hl), land_lor_zero.
    destruct (uchar_checks b Hb) as [-> _]. rewrite andb_assoc. reflexivity.
Qed.

Lemma orBytes_scan (l : list uchar) :
  forallb isUChar l = true ->
  (Z.land (orBytes l) 0x80 =? 0) = isAllASCII_naive l.
Proof. intros Hl. unfold orBytes. rewrite (orBytes_acc l 0 Hl). reflexivity. Qed.

Lemma load32_scan (b0 b1 b2 b3 : uchar) :
  isUChar b0 = true -> isUChar b1 = true -> isUChar b2 = true -> isUChar b3 = true ->
  (Z.land (load32 b0 b1 b2 b3) 0x80808080 =? 0)
  = isAllASCII_naive [b0; b1; b2; b3].
Proof.
  intros H0 H1 H2 H3. unfold load32. rewrite !land_lor_zero.
  destruct (uchar_checks b0 H0) as [_ E0]. specialize (E0 0).
  rewrite Z.shiftl_0_r in E0.
  destruct (uchar_checks b1 H1) as [_ E1], (uchar_checks b2 H2) as [_ E2],
           (uchar_checks b3 H3) as [_ E3].
  rewrite E0, (E1 8), (E2 16), (E3 24) by (simpl; tauto).
  simpl. rewrite andb_true_r. reflexivity.
Qed.

Lemma isAllASCII_naive_app (l1 l2 : list uchar) :
  isAllASCII_naive (l1 ++ l2) = isAllASCII_naive l1 && isAllASCII_naive l2.
Proof. apply forallb_app. Qed.

(** The aligned loop either rejects, and then the scan rejects, or leaves a
    tail on which the scan gives the result for the whole run. *)
Lemma wordLoop_scan (n : nat) : forall l : list uchar,
  (length l <= n)%nat -> forallb isUChar l = true ->
  match wordLoop l with
  | None => isAllASCII_naive l = false
  | Some tail => forallb isUChar tail = true
                 /\ isAllASCII_naive l = isAllASCII_naive tail
  end.
Proof.
  induction n as [|n IH]; intros l Hlen Hl.
  - destruct l; [simpl; auto | simpl in Hlen; lia].
  - destruct l as [|b0 [|b1 [|b2 [|b3 rest]]]]; try (simpl; auto; fail).
    cbn [wordLoop].
    assert (Hbytes : isUChar b0 = true /\ isUChar b1 = true /\ isUChar b2 = true
                     /\ isUChar b3 = true /\ forallb isUChar rest = true).
    { cbn [forallb] in Hl. rewrite !andb_true_iff in Hl. tauto. }
    destruct Hbytes as (H0 & H1 & H2 & H3 & Hrest).
    rewrite (load32_scan b0 b1 b2 b3 H0 H1 H2 H3).
    rewrite (isAllASCII_naive_app [b0; b1; b2; b3] rest : isAllASCII_naive
               (b0 :: b1 :: b2 :: b3 :: rest) = _).
    destruct (isAllASCII_naive [b0; b1; b2; b3]); [|reflexivity].
    simpl in Hlen. assert (Hr : (length rest <= n)%nat) by lia.
    specialize (IH rest Hr Hrest).
    destruct (wordLoop rest) as [tail|]; simpl; exact IH.
Qed.

Lemma isAllASCII_scan (addr : Z) (bytes : list uchar) :
  forallb isUChar bytes = true ->
  isAllASCII addr bytes = isAllASCII_naive bytes.
Proof.
  intros Hb. unfold isAllASCII.
  destruct (4 <=? Z.of_nat (length bytes)); [|apply orBytes_scan, Hb].
  set (k := alignGap addr).
  assert (Hsplit : forallb isUChar (take k bytes) = true
                   /\ forallb isUChar (drop k bytes) = true).
  { rewrite <- (take_drop k bytes) in Hb. rewrite forallb_app in Hb.
    apply andb_true_iff in Hb. exact Hb. }
  destruct Hsplit as [Hhead Hrest].
  assert (Hscan : isAllASCII_naive bytes
                  = isAllASCII_naive (take k bytes) && isAllASCII_naive (drop k bytes)).
  { rewrite <- isAllASCII_naive_app, take_drop. reflexivity. }
  rewrite (orBytes_scan _ Hhead), Hscan.
  destruct (isAllASCII_naive (take k bytes)); [|reflexivity].
  pose proof (wordLoop_scan (length (drop k bytes)) (drop k bytes) (le_n _) Hrest) as Hw.
  destruct (wordLoop (drop k bytes)) as [tail|].
  - destruct Hw as [Ht ->]. simpl. apply orBytes_scan, Ht.
  - rewrite Hw. reflexivity.
Qed.

Lemma slice_uchar (arr : list uchar) (start end_ : nat) :
  forallb isUChar arr = true -> forallb isUChar (slice arr start end_) = true.
Proof.
  intros Ha. rewrite forallb_forall in *. intros b Hb. apply Ha.
  unfold slice in Hb. apply list_elem_of_In in Hb. apply list_elem_of_In.
  eapply subseteq_drop, subseteq_take, Hb.
Qed.

(** *** The transcoders on surrogates *)

(** The model of each transcoder passes every assertion of its test. *)
Lemma test_UTF16ToUTF8StringWithSingleSurrogates :
  runCases convertSingle singleSurrogateCases = true.
Proof. vm_compute. reflexivity. Qed.

Lemma test_UTF16ToUTF8StringWithReplacements :
  runCases convertRepl replacementCases = true.
Proof. vm_compute. reflexivity. Qed.

(** Exact mode as section 4.7 words it does not pass the repository's test:
    the assertion of lines 38-39 fails for it. *)
Lemma spec_words_exact_mode_fails_its_test :
  runCases (transcodeExact_spec []) singleSurrogateCases = false
  /\ transcodeExact_spec [] [0xD83D; 0xDE39] = [0xF0; 0x9F; 0x98; 0xB9].
Proof. split; vm_compute; reflexivity. Qed.

(** C1, as stated, fails: the test of the exact-mode transcoder (line 39)
    expects six bytes for the valid pair [0xD83D, 0xDE39], each half encoded
    on its own, and that is what the transcoder gives, not the four bytes
    [0xF0, 0x9F, 0x98, 0xB9]. *)
Lemma exact_mode_pair_is_not_combined :
  In ([0xED; 0xA0; 0xBD; 0xED; 0xB8; 0xB9], [0xD83D; 0xDE39]) singleSurrogateCases
  /\ convertUTF16ToUTF8WithSingleSurrogates [] [0xD83D; 0xDE39]
     = [0xED; 0xA0; 0xBD; 0xED; 0xB8; 0xB9]
  /\ convertUTF16ToUTF8WithSingleSurrogates [] [0xD83D; 0xDE39]
     <> [0xF0; 0x9F; 0x98; 0xB9].
Proof.
  split; [|split].
  - unfold singleSurrogateCases. do 6 right. left. reflexivity.
  - reflexivity.
  - intros Heq. vm_compute in Heq. discriminate Heq.
Qed.

(** C1 (amended): the exact-mode transcoder appends [0xED,0xA0,0xBD,
    0xED,0xB8,0xB9] for the input [0xD83D, 0xDE39], [0xED,0xA0,0xBD] for
    [0xD83D] alone and ['a',0xED,0xA0,0xBD,'b'] for ['a', 0xD83D, 'b'];
    in general it appends the encoding of every unit taken on its own. *)
Theorem exact_mode_examples (dest : list uchar) :
  convertUTF16ToUTF8WithSingleSurrogates dest [0xD83D; 0xDE39]
    = dest ++ [0xED; 0xA0; 0xBD; 0xED; 0xB8; 0xB9]
  /\ convertUTF16ToUTF8WithSingleSurrogates dest [0xD83D]
    = dest ++ [0xED; 0xA0; 0xBD]
  /\ convertUTF16ToUTF8WithSingleSurrogates dest [chr "a"; 0xD83D; chr "b"]
    = dest ++ [chr "a"; 0xED; 0xA0; 0xBD; chr "b"]
  /\ forall (c : char16) (rest : list char16),
       convertUTF16ToUTF8WithSingleSurrogates dest (c :: rest)
       = convertUTF16ToUTF8WithSingleSurrogates (dest ++ encodeUTF8 c) rest.
Proof.
  unfold convertUTF16ToUTF8WithSingleSurrogates.
  repeat split; try reflexivity.
  intros c rest. cbn [flat_map]. rewrite app_assoc. reflexivity.
Qed.

(** C2, as stated, fails: [0xD83D, 0xDE39] is well formed, and the two
    transcoders give different bytes for it. *)
Lemma transcoders_differ_on_valid_pair :
  wellFormed [0xD83D; 0xDE39] = true
  /\ convertUTF16ToUTF8WithSingleSurrogates [] [0xD83D; 0xDE39]
     = [0xED; 0xA0; 0xBD; 0xED; 0xB8; 0xB9]
  /\ convertUTF16ToUTF8WithReplacements [] [0xD83D; 0xDE39]
     = [0xF0; 0x9F; 0x98; 0xB9]
  /\ convertUTF16ToUTF8WithSingleSurrogates [] [0xD83D; 0xDE39]
     <> convertUTF16ToUTF8WithReplacements [] [0xD83D; 0xDE39].
Proof.
  split; [reflexivity|]. split; [reflexivity|]. split; [reflexivity|].
  intros Heq. vm_compute in Heq. discriminate Heq.
Qed.

(** C2 (amended): the two transcoders produce identical output exactly on
    the sequences that contain no surrogate unit.  A valid lead+trail pair
    becomes the 4-byte sequence of 0x10000 + (lead-0xD800)*0x400 +
    (trail-0xDC00) in replacement mode only; exact mode emits the 3-byte
    sequence of the lead and then the 3-byte sequence of the trail. *)
Theorem transcoders_agree (out : list uchar) (s : list char16) :
  (convertUTF16ToUTF8WithSingleSurrogates out s
     = convertUTF16ToUTF8WithReplacements out s
   <-> noSurrogate s = true)
  /\ forall lead trail : char16,
       isHighSurrogate lead = true -> isLowSurrogate trail = true ->
       let cp := 0x10000 + (lead - 0xD800) * 0x400 + (trail - 0xDC00) in
       convertUTF16ToUTF8WithReplacements out [lead; trail]
         = out ++ [Z.lor 0xF0 (Z.shiftr cp 18);
                   Z.lor 0x80 (Z.land (Z.shiftr cp 12) 0x3F);
                   Z.lor 0x80 (Z.land (Z.shiftr cp 6) 0x3F);
                   Z.lor 0x80 (Z.land cp 0x3F)]
       /\ convertUTF16ToUTF8WithSingleSurrogates out [lead; trail]
         = out ++ [0xED; Z.lor 0x80 (Z.land (Z.shiftr lead 6) 0x3F);
                         Z.lor 0x80 (Z.land lead 0x3F);
                   0xED; Z.lor 0x80 (Z.land (Z.shiftr trail 6) 0x3F);
                         Z.lor 0x80 (Z.land trail 0x3F)].
Proof.
  unfold convertUTF16ToUTF8WithSingleSurrogates, convertUTF16ToUTF8WithReplacements.
  split.
  - rewrite <- loops_agree_iff.
    split; [apply app_inv_head | intros ->; reflexivity].
  - intros lead trail Hl Ht. split.
    + rewrite (replacementLoop_pair lead trail [] Hl Ht).
      destruct (encodeUTF8_supplementary (decodeSurrogatePair lead trail)) as [-> _].
      { apply decodeSurrogatePair_range; assumption. }
      reflexivity.
    + cbn [flat_map].
      rewrite (encodeUTF8_surrogate lead), (encodeUTF8_surrogate trail).
      * reflexivity.
      * rewrite surrogate_split, Ht. apply orb_true_r.
      * rewrite surrogate_split, Hl. reflexivity.
Qed.

Lemma transcoders_agree_witness :
  noSurrogate [chr "e"; 0x0301; 0x2603] = true
  /\ convertUTF16ToUTF8WithSingleSurrogates [] [chr "e"; 0x0301; 0x2603]
     = convertUTF16ToUTF8WithReplacements [] [chr "e"; 0x0301; 0x2603]
  /\ convertUTF16ToUTF8WithReplacements [] [0xD83D; 0xDE39] = [0xF0; 0x9F; 0x98; 0xB9].
Proof.
  split; [reflexivity|]. split.
  - apply (transcoders_agree [] [chr "e"; 0x0301; 0x2603]). reflexivity.
  - apply (proj2 (transcoders_agree [] []) 0xD83D 0xDE39); reflexivity.
Defined.

Lemma noPair_tail (c : char16) (rest : list char16) :
  noPair (c :: rest) = true -> noPair rest = true.
Proof.
  destruct rest as [|d rest']; [reflexivity|].
  cbn [noPair]. intros H. apply andb_true_iff in H as [_ H]. exact H.
Qed.

Lemma replacementLoop_noPair (s : list char16) :
  noPair s = true -> replacementLoop s = flat_map replaceUnit s.
Proof.
  induction s as [|c rest IH]; [reflexivity|].
  intros Hnp. pose proof (noPair_tail c rest Hnp) as Hrest.
  specialize (IH Hrest). cbn [flat_map]. unfold replaceUnit at 1.
  rewrite surrogate_split. cbn [replacementLoop].
  destruct (isLowSurrogate c) eqn:El.
  - rewrite orb_true_r, replacement_bytes, IH. reflexivity.
  - rewrite orb_false_r. destruct (isHighSurrogate c) eqn:Eh.
    + destruct rest as [|d rest']; [rewrite replacement_bytes; reflexivity|].
      cbn [noPair] in Hnp. rewrite Eh in Hnp.
      destruct (isLowSurrogate d) eqn:Ed; [discriminate Hnp|].
      rewrite replacement_bytes, IH. reflexivity.
    + rewrite IH. reflexivity.
Qed.

(** C5: the replacement-mode transcoder emits 0xEF 0xBF 0xBD for each lone
    surrogate and consumes one unit for it: a trail that no lead precedes, a
    lead that ends the input, a lead that no trail follows.  Lone surrogates
    are never merged: in a sequence where no lead is immediately followed
    by a trail every surrogate gives its own replacement.  Every other
    unit is encoded as in the well-formed cases, a valid pair as four
    bytes. *)
Theorem replacement_mode_lone_surrogates (out : list uchar) :
  (forall c rest, isLowSurrogate c = true ->
     convertUTF16ToUTF8WithReplacements out (c :: rest)
     = convertUTF16ToUTF8WithReplacements (out ++ [0xEF; 0xBF; 0xBD]) rest)
  /\ (forall c, isHighSurrogate c = true ->
     convertUTF16ToUTF8WithReplacements out [c] = out ++ [0xEF; 0xBF; 0xBD])
  /\ (forall c d rest, isHighSurrogate c = true -> isLowSurrogate d = false ->
     convertUTF16ToUTF8WithReplacements out (c :: d :: rest)
     = convertUTF16ToUTF8WithReplacements (out ++ [0xEF; 0xBF; 0xBD]) (d :: rest))
  /\ (forall c d rest, isHighSurrogate c = true -> isLowSurrogate d = true ->
     convertUTF16ToUTF8WithReplacements out (c :: d :: rest)
     = convertUTF16ToUTF8WithReplacements
         (out ++ encodeUTF8 (0x10000 + (c - 0xD800) * 0x400 + (d - 0xDC00))) rest
     /\ length (encodeUTF8 (0x10000 + (c - 0xD800) * 0x400 + (d - 0xDC00))) = 4%nat)
  /\ (forall c rest, isSurrogate c = false ->
     convertUTF16ToUTF8WithReplacements out (c :: rest)
     = convertUTF16ToUTF8WithReplacements (out ++ encodeUTF8 c) rest)
  /\ (forall s, noPair s = true ->
     convertUTF16ToUTF8WithReplacements out s = out ++ flat_map replaceUnit s).
Proof.
  unfold convertUTF16ToUTF8WithReplacements.
  split; [|split; [|split; [|split; [|split]]]].
  - intros c rest Hc. cbn [replacementLoop]. rewrite Hc, replacement_bytes.
    rewrite <- app_assoc. reflexivity.
  - intros c Hc. cbn [replacementLoop].
    rewrite (high_not_low c Hc), Hc. reflexivity.
  - intros c d rest Hc Hd. rewrite <- app_assoc. f_equal.
    change (replacementLoop (c :: d :: rest))
      with (if isLowSurrogate c
            then encodeUTF8 UNICODE_REPLACEMENT_CHARACTER ++ replacementLoop (d :: rest)
            else if isHighSurrogate c then
              if isLowSurrogate d
              then encodeUTF8 (decodeSurrogatePair c d) ++ replacementLoop rest
              else encodeUTF8 UNICODE_REPLACEMENT_CHARACTER ++ replacementLoop (d :: rest)
            else encodeUTF8 c ++ replacementLoop (d :: rest)).
    rewrite (high_not_low c Hc), Hc, Hd. reflexivity.
  - intros c d rest Hc Hd. rewrite (replacementLoop_pair c d rest Hc Hd).
    fold (decodeSurrogatePair c d). rewrite <- app_assoc. split; [reflexivity|].
    destruct (encodeUTF8_supplementary (decodeSurrogatePair c d)) as [-> _].
    { apply decodeSurrogatePair_range; assumption. }
    reflexivity.
  - intros c rest Hc. rewrite (replacementLoop_plain c rest Hc).
    rewrite <- app_assoc. reflexivity.
  - intros s Hs. rewrite (replacementLoop_noPair s Hs). reflexivity.
Qed.

Lemma replacement_mode_lone_surrogates_witness :
  convertUTF16ToUTF8WithReplacements [] [0xDE39; 0xD83D; chr "b"; 0xD83D]
  = [0xEF; 0xBF; 0xBD; 0xEF; 0xBF; 0xBD; chr "b"; 0xEF; 0xBF; 0xBD].
Proof.
  apply (proj2 (proj2 (proj2 (proj2 (proj2 (replacement_mode_lone_surrogates [])))))
           [0xDE39; 0xD83D; chr "b"; 0xD83D]).
  reflexivity.
Defined.

(** C8: isAllASCII over a byte range is true if and only if every byte of
    the range is <= 0x7F; it is true for the empty range; and for every
    sub-range of an array, at whatever address the array lies (so for every
    alignment of the start and of the end and every length), its result is
    that of the byte-by-byte scan of the sub-range. *)
Theorem isAllASCII_is_the_byte_scan (base : Z) (arr : list uchar) :
  forallb isUChar arr = true ->
  (isAllASCII base arr = true <-> forall b, In b arr -> b <= 0x7F)
  /\ isAllASCII base [] = true
  /\ forall start end_ : nat,
       isAllASCII (base + Z.of_nat start) (slice arr start end_)
       = isAllASCII_naive (slice arr start end_).
Proof.
  intros Harr. split; [|split].
  - rewrite (isAllASCII_scan base arr Harr). unfold isAllASCII_naive.
    rewrite forallb_forall. split; intros Hall b Hb.
    + apply Z.leb_le, Hall, Hb.
    + apply Z.leb_le, Hall, Hb.
  - reflexivity.
  - intros start end_. apply isAllASCII_scan, slice_uchar, Harr.
Qed.

Lemma isAllASCII_is_the_byte_scan_witness :
  forallb isUChar partialAsciiArr = true
  /\ isAllASCII (1 + Z.of_nat 2) (slice partialAsciiArr 2 7)
     = isAllASCII_naive (slice partialAsciiArr 2 7).
Proof.
  split; [reflexivity|].
  apply (isAllASCII_is_the_byte_scan 1 partialAsciiArr). reflexivity.
Defined.

(** The assertions of TEST(StringTest, IsAllASCIITest), with the arrays at
    each of the four alignments. *)
Lemma test_IsAllASCIITest :
  forallb (fun base =>
    isAllASCII base ascii && negb (isAllASCII base notAscii)
    && isAllASCII base asciiArr && negb (isAllASCII base partialAsciiArr)
    && negb (isAllASCII base noAsciiArr)
    && torture base asciiArr (fun _ _ => true)
    && torture base noAsciiArr (fun start end_ => Nat.eqb start end_))
    [0; 1; 2; 3] = true.
Proof. vm_compute. reflexivity. Qed.

End UnicodeFacts.

(** ** Part IV: properties of the DataView natives *)

Module DataViewFacts.
Import DataView.

Section Facts.
Context `{Host}.

Local Abbreviation HV := (HermesValue double).

Lemma sizeof_bounds (T : NumKind) : 1 <= sizeof T <= 8.
Proof. destruct T; simpl; lia. Qed.

Lemma index_bounds (idx : Index) : 0 <= indexValue idx <= 2 ^ 53 - 1.
Proof.
  pose proof (indexInRange idx) as Hr.
  apply andb_true_iff in Hr as [Hlo Hhi].
  apply Z.leb_le in Hlo, Hhi. split; assumption.
Qed.

(** The 64-bit sum of an index and a size never wraps. *)
Lemma uint64_add_index (idx : Index) (T : NumKind) :
  uint64_add (indexValue idx) (sizeof T) = indexValue idx + sizeof T.
Proof.
  pose proof (index_bounds idx) as Hi. pose proof (sizeof_bounds T) as Hs.
  unfold uint64_add. apply Z.mod_small.
  change (2 ^ 53 - 1) with 9007199254740991 in Hi.
  change (2 ^ 64) with 18446744073709551616. lia.
Qed.

Lemma length_toLeBytes (k : nat) (v : Z) : length (toLeBytes k v) = k.
Proof. revert v. induction k as [|k IH]; intros v; simpl; [|rewrite IH]; reflexivity. Qed.

Lemma length_toBytes (T : NumKind) (v : Z) (littleEndian : bool) :
  length (toBytes T v littleEndian) = Z.to_nat (sizeof T).
Proof.
  unfold toBytes. destruct littleEndian; [|rewrite length_rev]; apply length_toLeBytes.
Qed.

(** Storing a run of bytes inside a list replaces that run and nothing
    else. *)
Lemma list_inserts_splice (pos : nat) (k l : list Z) :
  (pos + length k <= length l)%nat ->
  list_inserts pos k l = take pos l ++ k ++ drop (pos + length k) l.
Proof.
  intros Hfit.
  rewrite <- (take_drop pos l) at 1.
  assert (Hpos : length (take pos l) = pos) by (rewrite length_take; lia).
  rewrite <- Hpos at 1. rewrite <- (Nat.add_0_r (length (take pos l))).
  rewrite list_inserts_app_r. f_equal.
  rewrite <- (take_drop (length k) (drop pos l)) at 1.
  rewrite list_inserts_0_r.
  - rewrite drop_drop. reflexivity.
  - rewrite length_take, length_drop. lia.
Qed.

Lemma attached_Some (runtime : Runtime) (view : JSDataView) (a : bool) :
  attached runtime view = Some a <->
  exists p b, buffer_ view = Some p /\ getArrayBuffer runtime p = Some b
              /\ attached_ b = a.
Proof.
  unfold attached. split.
  - destruct (buffer_ view) as [p|]; simpl; [|discriminate].
    destruct (getArrayBuffer runtime p) as [b|] eqn:Hb; simpl; [|discriminate].
    intros [= <-]. exists p, b. auto.
  - intros (p & b & -> & Hb & <-). simpl. rewrite Hb. reflexivity.
Qed.

(** C4: get<T> and set<T> look at the attached flag in the runtime the
    argument coercions left (after the offset coercion and the endianness
    read, and for set after the value coercion as well).  If the buffer is
    detached there, whatever the offset and the value are, the operation
    ends with the DetachedBufferError in that same runtime: nothing is read
    from the buffer and nothing is written to it. *)
Theorem detached_buffer_is_rejected (T : NumKind) (runtime : Runtime)
    (args : NativeArgs) (self : GCPointer) :
  dyncastThis_JSDataView runtime args = Some self ->
  (forall r1 idx view,
     toIndex runtime (getArg args 0) = (r1, RETURNED idx) ->
     getDataView r1 self = Some view ->
     attached r1 view = Some false ->
     dataViewPrototypeGet T runtime args
     = Some (r1, EXCEPTION DetachedBufferError_get))
  /\ (forall r1 idx r2 number view,
     toIndex runtime (getArg args 0) = (r1, RETURNED idx) ->
     toNumber_RJS r1 (getArg args 1) = (r2, RETURNED number) ->
     getDataView r2 self = Some view ->
     attached r2 view = Some false ->
     dataViewPrototypeSet T runtime args
     = Some (r2, EXCEPTION DetachedBufferError_set)).
Proof.
  intros Hself. split.
  - intros r1 idx view Hidx Hview Hatt.
    unfold dataViewPrototypeGet. rewrite Hself, Hidx, Hview. simpl.
    rewrite Hatt. reflexivity.
  - intros r1 idx r2 number view Hidx Hnum Hview Hatt.
    unfold dataViewPrototypeSet. rewrite Hself, Hidx, Hnum, Hview. simpl.
    rewrite Hatt. reflexivity.
Qed.

Lemma attached_true (runtime : Runtime) (view : JSDataView) (p : GCPointer)
    (b : JSArrayBuffer) :
  buffer_ view = Some p -> getArrayBuffer runtime p = Some b ->
  attached runtime view = Some (attached_ b).
Proof. intros Hp Hb. unfold attached. rewrite Hp. simpl. rewrite Hb. reflexivity. Qed.

(** Inside the storage, get<T> of the view reads the sizeof(T) bytes at
    view.byteOffset + offset. *)
Lemma JSDataView_get_inside (T : NumKind) (runtime : Runtime) (view : JSDataView)
    (p : GCPointer) (b : JSArrayBuffer) (offset : Z) (littleEndian : bool) :
  buffer_ view = Some p -> getArrayBuffer runtime p = Some b ->
  attached_ b = true ->
  0 <= offset_ view + offset ->
  offset_ view + offset + sizeof T <= size b ->
  JSDataView_get T runtime view offset littleEndian
  = Some (ofBytes (take (Z.to_nat (sizeof T))
                     (drop (Z.to_nat (offset_ view + offset)) (data_ b)))
            littleEndian).
Proof.
  intros Hp Hb Hatt Hlo Hhi. unfold JSDataView_get.
  rewrite Hp. simpl. rewrite Hb. simpl. rewrite Hatt.
  destruct (Z.leb_spec 0 (offset_ view + offset)); [|lia]. simpl.
  rewrite sublist_lookup_Some; [reflexivity|].
  unfold size in Hhi. pose proof (sizeof_bounds T). lia.
Qed.

(** Inside the storage, set<T> of the view replaces the sizeof(T) bytes at
    view.byteOffset + offset and leaves every other byte, and the length,
    as they were. *)
Lemma JSDataView_set_Some (T : NumKind) (runtime r' : Runtime) (view : JSDataView)
    (offset value : Z) (littleEndian : bool) :
  JSDataView_set T runtime view offset value littleEndian = Some r' <->
  exists p b,
    buffer_ view = Some p /\ getArrayBuffer runtime p = Some b
    /\ attached_ b = true
    /\ 0 <= offset_ view + offset
    /\ offset_ view + offset + sizeof T <= size b
    /\ r' = {| heap :=
                 <[p := ArrayBufferCell
                          {| data_ :=
                               take (Z.to_nat (offset_ view + offset)) (data_ b)
                               ++ toBytes T value littleEndian
                               ++ drop (Z.to_nat (offset_ view + offset)
                                        + Z.to_nat (sizeof T)) (data_ b);
                             attached_ := true |}]> (heap runtime) |}.
Proof.
  assert (Hsplice : forall b : JSArrayBuffer,
    0 <= offset_ view + offset -> offset_ view + offset + sizeof T <= size b ->
    list_inserts (Z.to_nat (offset_ view + offset)) (toBytes T value littleEndian) (data_ b)
    = take (Z.to_nat (offset_ view + offset)) (data_ b)
      ++ toBytes T value littleEndian
      ++ drop (Z.to_nat (offset_ view + offset) + Z.to_nat (sizeof T)) (data_ b)).
  { intros b Hlo Hhi. rewrite list_inserts_splice; rewrite length_toBytes.
    - reflexivity.
    - unfold size in Hhi. pose proof (sizeof_bounds T). lia. }
  unfold JSDataView_set. split.
  - destruct (buffer_ view) as [p|]; simpl; [|discriminate].
    destruct (getArrayBuffer runtime p) as [b|] eqn:Hb; simpl; [|discriminate].
    destruct (attached_ b) eqn:Hatt; simpl; [|discriminate].
    destruct (Z.leb_spec 0 (offset_ view + offset)); simpl; [|discriminate].
    destruct (Z.leb_spec (offset_ view + offset + sizeof T) (size b)); [|discriminate].
    intros [= <-]. exists p, b. rewrite Hsplice by assumption. auto 10.
  - intros (p & b & -> & Hb & Hatt & Hlo & Hhi & ->). simpl. rewrite Hb. simpl.
    rewrite Hatt.
    destruct (Z.leb_spec 0 (offset_ view + offset)); [|lia].
    destruct (Z.leb_spec (offset_ view + offset + sizeof T) (size b)); [|lia].
    simpl. rewrite Hsplice by assumption. reflexivity.
Qed.

Lemma gtb_false (a b : Z) : a <= b -> (a >? b) = false.
Proof. intros Hab. rewrite Z.gtb_ltb. apply Z.ltb_ge. exact Hab. Qed.

Lemma gtb_true (a b : Z) : a > b -> (a >? b) = true.
Proof. intros Hab. rewrite Z.gtb_ltb. apply Z.ltb_lt. lia. Qed.

(** C6: for every element type T and every view of at least sizeof(T)
    bytes whose window lies inside its attached buffer (section 3), get<T>
    and set<T> at offset view.byteLength - sizeof(T) pass the bounds check
    and succeed (get returns the number decoded from the last sizeof(T)
    bytes of the view; set returns undefined in the runtime where the last
    sizeof(T) bytes of the view's window hold the bytes of the value and
    everything else is as the coercions left it), and at
    view.byteLength - sizeof(T) + 1 they fail with the OutOfBoundsError.
    The offset is what toIndex returned; for set the value coercion has
    returned as well. *)
Theorem bounds_check_edge (T : NumKind) (runtime : Runtime) (args : NativeArgs)
    (self : GCPointer) :
  dyncastThis_JSDataView runtime args = Some self ->
  (forall r1 idx view p b,
     toIndex runtime (getArg args 0) = (r1, RETURNED idx) ->
     getDataView r1 self = Some view ->
     buffer_ view = Some p -> getArrayBuffer r1 p = Some b ->
     attached_ b = true -> viewInBuffer view b ->
     sizeof T <= length_ view ->
     (indexValue idx = length_ view - sizeof T ->
      dataViewPrototypeGet T runtime args
      = Some (r1, RETURNED (SafeNumericEncoder_encode T
                (ofBytes (take (Z.to_nat (sizeof T))
                            (drop (Z.to_nat (offset_ view + indexValue idx)) (data_ b)))
                   (toBoolean (getArg args 1))))))
     /\ (indexValue idx = length_ view - sizeof T + 1 ->
      dataViewPrototypeGet T runtime args
      = Some (r1, EXCEPTION OutOfBoundsError_get)))
  /\ (forall r1 idx r2 number view p b,
     toIndex runtime (getArg args 0) = (r1, RETURNED idx) ->
     toNumber_RJS r1 (getArg args 1) = (r2, RETURNED number) ->
     getDataView r2 self = Some view ->
     buffer_ view = Some p -> getArrayBuffer r2 p = Some b ->
     attached_ b = true -> viewInBuffer view b ->
     sizeof T <= length_ view ->
     (indexValue idx = length_ view - sizeof T ->
      dataViewPrototypeSet T runtime args
      = Some ({| heap :=
                   <[p := ArrayBufferCell
                            {| data_ :=
                                 take (Z.to_nat (offset_ view + indexValue idx)) (data_ b)
                                 ++ toBytes T (toDestType T number)
                                      (toBoolean (getArg args 2))
                                 ++ drop (Z.to_nat (offset_ view + indexValue idx)
                                          + Z.to_nat (sizeof T)) (data_ b);
                               attached_ := true |}]> (heap r2) |},
              RETURNED HVUndefined))
     /\ (indexValue idx = length_ view - sizeof T + 1 ->
      dataViewPrototypeSet T runtime args
      = Some (r2, EXCEPTION OutOfBoundsError_set))).
Proof.
  intros Hself. split.
  - intros r1 idx view p b Hidx Hview Hp Hb Hatt (Hoff & Hlen & Hfit) Hsize.
    pose proof (attached_true r1 view p b Hp Hb) as Ha. rewrite Hatt in Ha.
    split; intros Hat; unfold dataViewPrototypeGet;
      rewrite Hself, Hidx, Hview; simpl; rewrite Ha; simpl;
      rewrite uint64_add_index.
    + rewrite gtb_false by lia.
      rewrite (JSDataView_get_inside T r1 view p b) by (assumption || lia).
      reflexivity.
    + rewrite gtb_true by lia. reflexivity.
  - intros r1 idx r2 number view p b Hidx Hnum Hview Hp Hb Hatt (Hoff & Hlen & Hfit) Hsize.
    pose proof (attached_true r2 view p b Hp Hb) as Ha. rewrite Hatt in Ha.
    split; intros Hat; unfold dataViewPrototypeSet;
      rewrite Hself, Hidx, Hnum, Hview; simpl; rewrite Ha; simpl;
      rewrite uint64_add_index.
    + rewrite gtb_false by lia.
      assert (Hset : JSDataView_set T r2 view (indexValue idx) (toDestType T number)
                       (toBoolean (getArg args 2)) = Some
        {| heap :=
             <[p := ArrayBufferCell
                      {| data_ :=
                           take (Z.to_nat (offset_ view + indexValue idx)) (data_ b)
                           ++ toBytes T (toDestType T number) (toBoolean (getArg args 2))
                           ++ drop (Z.to_nat (offset_ view + indexValue idx)
                                    + Z.to_nat (sizeof T)) (data_ b);
                         attached_ := true |}]> (heap r2) |}).
      { apply JSDataView_set_Some. exists p, b.
        repeat split; try assumption; lia. }
      rewrite Hset. reflexivity.
    + rewrite gtb_true by lia. reflexivity.
Qed.

(** C7: set<T> ends in exactly one of the six ways of section 4.6.  When a
    step fails (receiver check, offset coercion, value coercion, attached
    check, bounds check) the matching error is raised and the runtime is the
    one the coercions that ran left, so the operation itself has modified no
    byte; bytes are written only when every check has passed, and then all
    sizeof(T) bytes of the value replace the bytes at
    view.byteOffset + offset in one step, every other byte staying as it
    was. *)
Theorem set_is_atomic (T : NumKind) (runtime : Runtime) (args : NativeArgs)
    (r' : Runtime) (res : CallResult double HV) :
  (dataViewPrototypeSet T runtime args = Some (r', res)
   <-> SetSpec T runtime args r' res)
  /\ forall number : double,
       length (toBytes T (toDestType T number) (toBoolean (getArg args 2)))
       = Z.to_nat (sizeof T).
Proof.
  split; [|intros number; apply length_toBytes].
  split.
  - unfold dataViewPrototypeSet.
    destruct (dyncastThis_JSDataView runtime args) as [self|] eqn:Hself.
    2:{ intros [= <- <-]. apply SetReceiverFails, Hself. }
    destruct (toIndex runtime (getArg args 0)) as [r1 [idx|e]] eqn:Hidx.
    2:{ intros [= <- <-]. eapply SetOffsetFails; eassumption. }
    destruct (toNumber_RJS r1 (getArg args 1)) as [r2 [number|e]] eqn:Hnum.
    2:{ intros [= <- <-]. eapply SetValueFails; eassumption. }
    destruct (getDataView r2 self) as [view|] eqn:Hview; simpl; [|discriminate].
    destruct (attached r2 view) as [[|]|] eqn:Hatt; simpl; [| |discriminate].
    2:{ intros [= <- <-]. eapply SetDetached; eassumption. }
    rewrite uint64_add_index.
    destruct (Z.gtb_spec (indexValue idx + sizeof T) (length_ view)) as [Hout|Hin].
    { intros [= <- <-]. eapply SetOutOfBounds; try eassumption. lia. }
    destruct (JSDataView_set T r2 view (indexValue idx) (toDestType T number)
                (toBoolean (getArg args 2))) as [rw|] eqn:Hset; simpl; [|discriminate].
    intros [= <- <-].
    apply JSDataView_set_Some in Hset
      as (p & b & Hp & Hb & Hab & Hlo & Hhi & ->).
    eapply SetWrites; eassumption.
  - intros Hspec. unfold dataViewPrototypeSet.
    destruct Hspec as [Hself | self r1 e Hself Hidx | self r1 idx r2 e Hself Hidx Hnum
      | self r1 idx r2 number view Hself Hidx Hnum Hview Hatt
      | self r1 idx r2 number view Hself Hidx Hnum Hview Hatt Hout
      | self r1 idx r2 number view p b Hself Hidx Hnum Hview Hp Hb Hab Hin Hlo Hhi];
      rewrite Hself; [reflexivity | rewrite Hidx .. ]; [reflexivity | rewrite Hnum .. ];
      [reflexivity | rewrite Hview .. ]; simpl.
    + rewrite Hatt. reflexivity.
    + rewrite Hatt. simpl. rewrite uint64_add_index, gtb_true by lia. reflexivity.
    + rewrite (attached_true r2 view p b Hp Hb), Hab. simpl.
      rewrite uint64_add_index, gtb_false by lia.
      assert (Hset : JSDataView_set T r2 view (indexValue idx) (toDestType T number)
                       (toBoolean (getArg args 2)) = Some
        {| heap :=
             <[p := ArrayBufferCell
                      {| data_ :=
                           take (Z.to_nat (offset_ view + indexValue idx)) (data_ b)
                           ++ toBytes T (toDestType T number) (toBoolean (getArg args 2))
                           ++ drop (Z.to_nat (offset_ view + indexValue idx)
                                    + Z.to_nat (sizeof T)) (data_ b);
                         attached_ := true |}]> (heap r2) |}).
      { apply JSDataView_set_Some. exists p, b. auto 10. }
      rewrite Hset. reflexivity.
Qed.

(** C3 (amended): with an explicit length argument, the constructor's check
    `offset + viewLength > bufferByteLength` is made against the byte length
    read once, right after the offset coercion and before the length
    coercion; what the length coercion does to the buffer has no part in
    the check.  The view is stored in the runtime the length coercion
    left. *)
Theorem constructor_length_check (runtime : Runtime) (args : NativeArgs)
    (self buffer : GCPointer) (r1 r2 : Runtime) (offset viewLength : Index)
    (b1 : JSArrayBuffer) :
  isConstructorCall args = true ->
  vmcastThis_JSDataView runtime args = Some self ->
  dyncastArg_JSArrayBuffer runtime args 0 = Some buffer ->
  toIndex runtime (getArg args 1) = (r1, RETURNED offset) ->
  getArrayBuffer r1 buffer = Some b1 ->
  indexValue offset <= size b1 ->
  isUndefined (getArg args 2) = false ->
  toIndex r1 (getArg args 2) = (r2, RETURNED viewLength) ->
  dataViewConstructor runtime args
  = if indexValue offset + indexValue viewLength >? size b1
    then Some (r2, EXCEPTION ConstructionRangeError_length)
    else
      r' ← setBuffer r2 self buffer (indexValue offset) (indexValue viewLength);
      Some (r', RETURNED (thisArg args)).
Proof.
  intros Hnew Hself Hbuf Hoff Hb1 Hfit Hdef Hlen.
  unfold dataViewConstructor.
  rewrite Hnew, Hself. simpl. rewrite Hbuf, Hoff, Hb1. simpl.
  rewrite gtb_false by assumption. rewrite Hdef, Hlen. reflexivity.
Qed.

Lemma getDataView_insert_view (runtime : Runtime) (self : GCPointer) (v : JSDataView) :
  getDataView {| heap := <[self := DataViewCell v]> (heap runtime) |} self = Some v.
Proof. unfold getDataView. simpl. rewrite lookup_insert_eq. reflexivity. Qed.

(** Detaching a buffer changes no view. *)
Lemma getDataView_detach (runtime : Runtime) (p self : GCPointer) :
  getDataView (detach runtime p) self = getDataView runtime self.
Proof.
  unfold detach. destruct (getArrayBuffer runtime p) as [b|] eqn:Hb; [|reflexivity].
  unfold getDataView. simpl. destruct (decide (p = self)) as [->|Hne].
  - rewrite lookup_insert_eq. unfold getArrayBuffer in Hb.
    destruct (heap runtime !! self) as [[| |]|]; congruence.
  - rewrite lookup_insert_ne by assumption. reflexivity.
Qed.

(** C9 (amended): constructing a view with offset equal to the buffer's
    byte length and no length argument succeeds and gives a view of
    byteLength 0.  No get<T> or set<T> on that view succeeds, for any T:
    once the argument coercions have returned, the operation fails with the
    OutOfBoundsError if the buffer is attached at that point and with the
    DetachedBufferError if it is not. *)
Theorem zero_length_view (runtime : Runtime) (args : NativeArgs)
    (self buffer : GCPointer) (r1 : Runtime) (offset : Index) (b1 : JSArrayBuffer)
    (fresh : JSDataView) :
  isConstructorCall args = true ->
  vmcastThis_JSDataView runtime args = Some self ->
  dyncastArg_JSArrayBuffer runtime args 0 = Some buffer ->
  isUndefined (getArg args 2) = true ->
  toIndex runtime (getArg args 1) = (r1, RETURNED offset) ->
  getArrayBuffer r1 buffer = Some b1 ->
  indexValue offset = size b1 ->
  getDataView r1 self = Some fresh ->
  let view0 := {| buffer_ := Some buffer; offset_ := size b1; length_ := 0 |} in
  let r' := {| heap := <[self := DataViewCell view0]> (heap r1) |} in
  dataViewConstructor runtime args = Some (r', RETURNED (thisArg args))
  /\ getDataView r' self = Some view0
  /\ forall (T : NumKind) (ra : Runtime) (args' : NativeArgs) (ra1 : Runtime)
            (idx : Index),
       thisArg args' = HVObject self ->
       getDataView ra self = Some view0 ->
       toIndex ra (getArg args' 0) = (ra1, RETURNED idx) ->
       (forall a, getDataView ra1 self = Some view0 -> attached ra1 view0 = Some a ->
          dataViewPrototypeGet T ra args'
          = Some (ra1, EXCEPTION (if a then OutOfBoundsError_get
                                  else DetachedBufferError_get)))
       /\ (forall ra2 number a,
          toNumber_RJS ra1 (getArg args' 1) = (ra2, RETURNED number) ->
          getDataView ra2 self = Some view0 -> attached ra2 view0 = Some a ->
          dataViewPrototypeSet T ra args'
          = Some (ra2, EXCEPTION (if a then OutOfBoundsError_set
                                  else DetachedBufferError_set))).
Proof.
  intros Hnew Hself Hbuf Hundef Hoff Hb1 Hsize Hfresh view0 r'.
  split; [|split].
  - unfold dataViewConstructor.
    rewrite Hnew, Hself. simpl. rewrite Hbuf, Hoff, Hb1. simpl.
    rewrite gtb_false by lia. rewrite Hundef.
    unfold setBuffer. rewrite Hfresh. simpl.
    rewrite Hsize, Z.sub_diag. reflexivity.
  - apply getDataView_insert_view.
  - intros T ra args' ra1 idx Hthis Hview Hidx.
    assert (Hdyn : dyncastThis_JSDataView ra args' = Some self).
    { unfold dyncastThis_JSDataView. rewrite Hthis, Hview. reflexivity. }
    pose proof (index_bounds idx) as Hi. pose proof (sizeof_bounds T) as Hs.
    split.
    + intros a Hview1 Hatt. unfold dataViewPrototypeGet.
      rewrite Hdyn, Hidx, Hview1. simpl. rewrite Hatt. simpl.
      destruct a; simpl; [|reflexivity].
      rewrite uint64_add_index, gtb_true by lia. reflexivity.
    + intros ra2 number a Hnum Hview2 Hatt. unfold dataViewPrototypeSet.
      rewrite Hdyn, Hidx, Hnum, Hview2. simpl. rewrite Hatt. simpl.
      destruct a; simpl; [|reflexivity].
      rewrite uint64_add_index, gtb_true by lia. reflexivity.
Qed.

(** What a successful construction has done: the offset coercion ran, the
    buffer's length was read in the runtime it left, and the view stored
    lies inside that length. *)
Lemma dataViewConstructor_stores (runtime : Runtime) (cargs : NativeArgs)
    (r' : Runtime) (v : HV) :
  dataViewConstructor runtime cargs = Some (r', RETURNED v) ->
  exists self buffer r1 offset b1 view,
    v = HVObject self /\ thisArg cargs = HVObject self
    /\ dyncastArg_JSArrayBuffer runtime cargs 0 = Some buffer
    /\ toIndex runtime (getArg cargs 1) = (r1, RETURNED offset)
    /\ getArrayBuffer r1 buffer = Some b1
    /\ getDataView r' self = Some view
    /\ buffer_ view = Some buffer
    /\ offset_ view = indexValue offset
    /\ viewInBuffer view b1.
Proof.
  intros Hnew. unfold dataViewConstructor, vmcastThis_JSDataView in Hnew.
  destruct (isConstructorCall cargs); simpl in Hnew; [|discriminate].
  destruct (dyncastThis_JSDataView runtime cargs) as [self|] eqn:Hself;
    simpl in Hnew; [|discriminate].
  assert (Hthis : thisArg cargs = HVObject self).
  { unfold dyncastThis_JSDataView in Hself.
    destruct (thisArg cargs) as [| | | |q]; try discriminate.
    destruct (getDataView runtime q); congruence. }
  destruct (dyncastArg_JSArrayBuffer runtime cargs 0) as [buffer|] eqn:Hbuffer;
    [|discriminate].
  destruct (toIndex runtime (getArg cargs 1)) as [r1 [offset|e]] eqn:Hoffset;
    [|discriminate].
  destruct (getArrayBuffer r1 buffer) as [b|] eqn:Hb; simpl in Hnew; [|discriminate].
  pose proof (index_bounds offset) as Hoff.
  destruct (Z.gtb_spec (indexValue offset) (size b)) as [|Hfit]; [discriminate|].
  assert (Hset : forall r len,
    0 <= len -> indexValue offset + len <= size b ->
    (rs ← setBuffer r self buffer (indexValue offset) len;
     Some (rs, @RETURNED double HV (thisArg cargs))) = Some (r', RETURNED v) ->
    v = HVObject self
    /\ exists view, getDataView r' self = Some view
         /\ buffer_ view = Some buffer
         /\ offset_ view = indexValue offset
         /\ viewInBuffer view b).
  { intros r len Hlen Hsum. unfold setBuffer.
    destruct (getDataView r self); simpl; [|discriminate].
    intros [= <- <-]. split; [exact Hthis|]. eexists.
    split; [apply getDataView_insert_view|]. split; [reflexivity|].
    split; [reflexivity|]. unfold viewInBuffer. simpl. lia. }
  assert (Hdone : v = HVObject self
    /\ exists view, getDataView r' self = Some view
         /\ buffer_ view = Some buffer
         /\ offset_ view = indexValue offset
         /\ viewInBuffer view b).
  { destruct (isUndefined (getArg cargs 2)); [apply Hset in Hnew; [exact Hnew|lia..]|].
    destruct (toIndex r1 (getArg cargs 2)) as [r2 [len|e]]; [|discriminate].
    pose proof (index_bounds len) as Hlen.
    destruct (Z.gtb_spec (indexValue offset + indexValue len) (size b));
      [discriminate|].
    apply Hset in Hnew; [exact Hnew|lia..]. }
  destruct Hdone as (Hv & view & Hview & Hbuf & Hofs & Hin).
  exists self, buffer, r1, offset, b, view.
  split; [exact Hv|]. split; [exact Hthis|]. do 2 (split; [reflexivity|]).
  split; [exact Hb|].
  split; [exact Hview|]. split; [exact Hbuf|]. split; [exact Hofs | exact Hin].
Qed.

(** C10: the buffer, byteLength and byteOffset accessors never look at the
    buffer's attached flag.  On a view they return what the view holds --
    the buffer reference, byteLength and byteOffset that construction
    stored -- and they return the same after any buffer has been detached;
    the runtime is left as it was.  They fail only when the receiver is not
    a DataView, with the ReceiverTypeError that names the accessor. *)
Theorem accessors_ignore_attached (runtime : Runtime) (args : NativeArgs) :
  (dyncastThis_JSDataView runtime args = None ->
     dataViewPrototypeBuffer runtime args
       = Some (runtime, EXCEPTION (ReceiverTypeError "buffer"))
     /\ dataViewPrototypeByteLength runtime args
       = Some (runtime, EXCEPTION (ReceiverTypeError "byteLength"))
     /\ dataViewPrototypeByteOffset runtime args
       = Some (runtime, EXCEPTION (ReceiverTypeError "byteOffset")))
  /\ (forall self view p,
     thisArg args = HVObject self ->
     getDataView runtime self = Some view ->
     buffer_ view = Some p ->
     forall r,
       r = runtime \/ (exists q, r = detach runtime q) ->
       dataViewPrototypeBuffer r args = Some (r, RETURNED (HVObject p))
       /\ dataViewPrototypeByteLength r args
          = Some (r, RETURNED (encodeNumberValue (length_ view)))
       /\ dataViewPrototypeByteOffset r args
          = Some (r, RETURNED (encodeNumberValue (offset_ view))))
  /\ (forall cargs r' v,
     dataViewConstructor runtime cargs = Some (r', RETURNED v) ->
     exists self view p,
       v = HVObject self /\ getDataView r' self = Some view
       /\ buffer_ view = Some p).
Proof.
  split; [|split].
  - intros Hnone.
    unfold dataViewPrototypeBuffer, dataViewPrototypeByteLength,
      dataViewPrototypeByteOffset. rewrite Hnone. repeat split.
  - intros self view p Hthis Hview Hp r Hr.
    assert (Hview' : getDataView r self = Some view).
    { destruct Hr as [-> | [q ->]]; [exact Hview|].
      rewrite getDataView_detach. exact Hview. }
    assert (Hdyn : dyncastThis_JSDataView r args = Some self).
    { unfold dyncastThis_JSDataView. rewrite Hthis, Hview'. reflexivity. }
    unfold dataViewPrototypeBuffer, dataViewPrototypeByteLength,
      dataViewPrototypeByteOffset. rewrite Hdyn, Hview'. simpl. rewrite Hp.
    repeat split.
  - intros cargs r' v Hnew.
    destruct (dataViewConstructor_stores runtime cargs r' v Hnew)
      as (self & buffer & _ & _ & _ & view & -> & _ & _ & _ & _ & Hview & Hbuf & _).
    exists self, view, buffer. auto.
Qed.

(** X1: the buffer-type check of the constructor precedes every coercion:
    when the first argument is not an ArrayBuffer the ConstructionTypeError
    is raised in the runtime as it was, whatever the other arguments are. *)
Theorem constructor_checks_buffer_first (runtime : Runtime) (args : NativeArgs)
    (self : GCPointer) :
  isConstructorCall args = true ->
  vmcastThis_JSDataView runtime args = Some self ->
  dyncastArg_JSArrayBuffer runtime args 0 = None ->
  dataViewConstructor runtime args = Some (runtime, EXCEPTION ConstructionTypeError).
Proof.
  intros Hnew Hself Hbuf. unfold dataViewConstructor.
  rewrite Hnew, Hself. simpl. rewrite Hbuf. reflexivity.
Qed.

(** X2: a view the constructor returns refers to the buffer argument, has
    the coerced offset, and satisfies 0 <= byteOffset, 0 <= byteLength and
    byteOffset + byteLength <= the buffer's byte length as read after the
    offset coercion. *)
Theorem constructor_view_in_buffer (runtime : Runtime) (args : NativeArgs)
    (r' : Runtime) (v : HV) :
  dataViewConstructor runtime args = Some (r', RETURNED v) ->
  exists self buffer r1 offset b1 view,
    v = HVObject self
    /\ dyncastArg_JSArrayBuffer runtime args 0 = Some buffer
    /\ toIndex runtime (getArg args 1) = (r1, RETURNED offset)
    /\ getArrayBuffer r1 buffer = Some b1
    /\ getDataView r' self = Some view
    /\ buffer_ view = Some buffer
    /\ offset_ view = indexValue offset
    /\ viewInBuffer view b1.
Proof.
  intros Hnew.
  destruct (dataViewConstructor_stores runtime args r' v Hnew)
    as (self & buffer & r1 & offset & b1 & view & Hv & _ & Hrest).
  exists self, buffer, r1, offset, b1, view. split; assumption.
Qed.

(** X3: get<T> writes nothing: the runtime it ends in is the one it was
    called in when the receiver check fails, and otherwise the one the
    offset coercion left. *)
Theorem get_is_read_only (T : NumKind) (runtime : Runtime) (args : NativeArgs)
    (r' : Runtime) (res : CallResult double HV) :
  dataViewPrototypeGet T runtime args = Some (r', res) ->
  r' = match dyncastThis_JSDataView runtime args with
       | None => runtime
       | Some _ => fst (toIndex runtime (getArg args 0))
       end.
Proof.
  unfold dataViewPrototypeGet.
  destruct (dyncastThis_JSDataView runtime args) as [self|]; [|intros [= <- _]; reflexivity].
  destruct (toIndex runtime (getArg args 0)) as [r1 [idx|e]]; simpl;
    [|intros [= <- _]; reflexivity].
  destruct (getDataView r1 self) as [view|]; simpl; [|discriminate].
  destruct (attached r1 view) as [[|]|]; simpl;
    [|intros [= <- _]; reflexivity | discriminate].
  destruct (uint64_add (indexValue idx) (sizeof T) >? length_ view);
    [intros [= <- _]; reflexivity|].
  destruct (JSDataView_get T r1 view (indexValue idx) (toBoolean (getArg args 1)));
    simpl; [intros [= <- _]; reflexivity | discriminate].
Qed.

End Facts.

End DataViewFacts.

(** ** Part V: the properties at concrete calls *)

Module DataViewExamples.
Import DataView Scenario DataViewFacts.

(** Section 8, the endianness example: over bytes [0x01, 0x02, ...],
    getUint16(0, true) is 0x0201 and getUint16(0, false) is 0x0102. *)
Example getUint16_endianness :
  dataViewPrototypeGet (H := host0) Uint16 runtime0 (call (HVObject 4%nat) [n 0; HVBool true])
    = Some (runtime0, RETURNED (n 0x0201))
  /\ dataViewPrototypeGet (H := host0) Uint16 runtime0 (call (HVObject 4%nat) [n 0; HVBool false])
    = Some (runtime0, RETURNED (n 0x0102)).
Proof. split; vm_compute; reflexivity. Qed.

(** C3, as stated, fails.  In `new DataView(buffer, 0, obj)` the coercion
    of obj detaches the 8-byte buffer and returns 8.  When the length check
    runs, the buffer's byte length is 0 and offset + viewLength = 8 > 0, yet
    no RangeError is raised: the check used the length 8 read before the
    coercion, and a view of length 8 is stored. *)
Lemma constructor_length_check_is_stale :
  toIndex (Host := host0) runtime0 (n 0) = (runtime0, RETURNED index0)
  /\ toIndex (Host := host0) runtime0 (HVObject 3%nat)
     = (detach runtime0 1%nat, RETURNED index8)
  /\ size <$> getArrayBuffer (detach runtime0 1%nat) 1%nat = Some 0
  /\ indexValue index0 + indexValue index8 > 0
  /\ dataViewConstructor (H := host0) runtime0
       (construct (HVObject 2%nat) [HVObject 1%nat; n 0; HVObject 3%nat])
     = Some (runtime3, RETURNED (HVObject 2%nat))
  /\ getDataView runtime3 2%nat = Some staleView.
Proof. repeat split; vm_compute; reflexivity. Qed.

Lemma constructor_length_check_witness :
  dataViewConstructor (H := host0) runtime0
    (construct (HVObject 2%nat) [HVObject 1%nat; n 0; HVObject 3%nat])
  = Some (runtime3, RETURNED (HVObject 2%nat)).
Proof.
  rewrite (constructor_length_check (H := host0) runtime0
             (construct (HVObject 2%nat) [HVObject 1%nat; n 0; HVObject 3%nat])
             2%nat 1%nat runtime0 (detach runtime0 1%nat) index0 index8 buffer8);
    try reflexivity.
  vm_compute. discriminate.
Defined.

Lemma detached_buffer_is_rejected_witness :
  dataViewPrototypeSet (H := host0) Int16 runtime0
    (call (HVObject 4%nat) [n 0; HVObject 3%nat])
  = Some (detach runtime0 1%nat, EXCEPTION DetachedBufferError_set)
  /\ dataViewPrototypeGet (H := host0) Int16 (detach runtime0 1%nat)
       (call (HVObject 4%nat) [n 0])
  = Some (detach runtime0 1%nat, EXCEPTION DetachedBufferError_get).
Proof.
  split.
  - apply (proj2 (detached_buffer_is_rejected (H := host0) Int16 runtime0
                    (call (HVObject 4%nat) [n 0; HVObject 3%nat]) 4%nat eq_refl)
             runtime0 index0 (detach runtime0 1%nat) (Some 8) wholeView);
      reflexivity.
  - apply (proj1 (detached_buffer_is_rejected (H := host0) Int16 (detach runtime0 1%nat)
                    (call (HVObject 4%nat) [n 0]) 4%nat eq_refl)
             (detach runtime0 1%nat) index0 wholeView);
      reflexivity.
Defined.

Lemma bounds_check_edge_witness :
  dataViewPrototypeGet (H := host0) Uint16 runtime0 (call (HVObject 4%nat) [n 6])
    = Some (runtime0, RETURNED (n 0x0708))
  /\ dataViewPrototypeGet (H := host0) Uint16 runtime0 (call (HVObject 4%nat) [n 7])
    = Some (runtime0, EXCEPTION OutOfBoundsError_get)
  /\ dataViewPrototypeSet (H := host0) Uint16 runtime0 (call (HVObject 4%nat) [n 7; n 1])
    = Some (runtime0, EXCEPTION OutOfBoundsError_set)
  /\ dataViewPrototypeSet (H := host0) Uint16 runtime0
       (call (HVObject 4%nat) [n 6; n 0x0A0B])
    = Some ({| heap := <[1%nat := ArrayBufferCell
                          {| data_ := [1; 2; 3; 4; 5; 6; 0x0A; 0x0B];
                             attached_ := true |}]> (heap runtime0) |},
            RETURNED HVUndefined).
Proof.
  assert (Hin : viewInBuffer wholeView buffer8) by (repeat split; vm_compute; discriminate).
  assert (Hsz : sizeof Uint16 <= length_ wholeView) by (vm_compute; discriminate).
  split; [|split; [|split]].
  - apply (proj1 (proj1 (bounds_check_edge (H := host0) Uint16 runtime0
                           (call (HVObject 4%nat) [n 6]) 4%nat eq_refl)
                    runtime0 index6 wholeView 1%nat buffer8
                    eq_refl eq_refl eq_refl eq_refl eq_refl Hin Hsz)).
    reflexivity.
  - apply (proj2 (proj1 (bounds_check_edge (H := host0) Uint16 runtime0
                           (call (HVObject 4%nat) [n 7]) 4%nat eq_refl)
                    runtime0 index7 wholeView 1%nat buffer8
                    eq_refl eq_refl eq_refl eq_refl eq_refl Hin Hsz)).
    reflexivity.
  - apply (proj2 (proj2 (bounds_check_edge (H := host0) Uint16 runtime0
                           (call (HVObject 4%nat) [n 7; n 1]) 4%nat eq_refl)
                    runtime0 index7 runtime0 (Some 1) wholeView 1%nat buffer8
                    eq_refl eq_refl eq_refl eq_refl eq_refl eq_refl Hin Hsz)).
    reflexivity.
  - apply (proj1 (proj2 (bounds_check_edge (H := host0) Uint16 runtime0
                           (call (HVObject 4%nat) [n 6; n 0x0A0B]) 4%nat eq_refl)
                    runtime0 index6 runtime0 (Some 0x0A0B) wholeView 1%nat buffer8
                    eq_refl eq_refl eq_refl eq_refl eq_refl eq_refl Hin Hsz)).
    reflexivity.
Defined.

(** setInt16(6, -2) on the whole-buffer view: the two bytes 0xFF 0xFE
    replace the last two bytes, big-endian by default. *)
Lemma set_is_atomic_witness :
  SetSpec (H := host0) Int16 runtime0 (call (HVObject 4%nat) [n 6; n (-2)])
    {| heap := <[1%nat := ArrayBufferCell
                  {| data_ := [1; 2; 3; 4; 5; 6; 0xFF; 0xFE]; attached_ := true |}]>
               (heap runtime0) |}
    (RETURNED HVUndefined).
Proof.
  apply (proj1 (proj1 (set_is_atomic (H := host0) Int16 runtime0
                         (call (HVObject 4%nat) [n 6; n (-2)]) _ _))).
  vm_compute. reflexivity.
Defined.

(** C9, as stated, fails.  `new DataView(buffer, 8)` on the 8-byte buffer
    gives view 2 of length 0; after the buffer is detached, getInt8(0) on
    it fails with the DetachedBufferError, which is not the
    OutOfBoundsError. *)
Lemma zero_length_view_detached :
  dataViewConstructor (H := host0) runtime0 (construct (HVObject 2%nat) [HVObject 1%nat; n 8])
    = Some (runtime9, RETURNED (HVObject 2%nat))
  /\ length_ <$> getDataView runtime9 2%nat = Some 0
  /\ dataViewPrototypeGet (H := host0) Int8 (detach runtime9 1%nat)
       (call (HVObject 2%nat) [n 0])
     = Some (detach runtime9 1%nat, EXCEPTION DetachedBufferError_get)
  /\ DetachedBufferError_get (H := host0) <> OutOfBoundsError_get.
Proof.
  split; [|split; [|split]]; try (vm_compute; reflexivity).
  unfold DetachedBufferError_get, OutOfBoundsError_get. discriminate.
Qed.

Lemma zero_length_view_witness :
  dataViewConstructor (H := host0) runtime0 (construct (HVObject 2%nat) [HVObject 1%nat; n 8])
    = Some (runtime9, RETURNED (HVObject 2%nat))
  /\ dataViewPrototypeGet (H := host0) Int8 runtime9 (call (HVObject 2%nat) [n 0])
     = Some (runtime9, EXCEPTION OutOfBoundsError_get).
Proof.
  pose proof (zero_length_view (H := host0) runtime0
                (construct (HVObject 2%nat) [HVObject 1%nat; n 8])
                2%nat 1%nat runtime0 index8 buffer8 freshView
                eq_refl eq_refl eq_refl eq_refl eq_refl eq_refl eq_refl eq_refl)
    as (Hnew & _ & Haccess).
  split; [exact Hnew|].
  apply (proj1 (Haccess Int8 runtime9 (call (HVObject 2%nat) [n 0]) runtime9 index0
                  eq_refl eq_refl eq_refl) true);
    reflexivity.
Defined.

Lemma constructor_checks_buffer_first_witness :
  dataViewConstructor (H := host0) runtime0
    (construct (HVObject 2%nat) [HVObject 3%nat; HVObject 3%nat])
  = Some (runtime0, EXCEPTION ConstructionTypeError).
Proof.
  apply (constructor_checks_buffer_first (H := host0) runtime0
           (construct (HVObject 2%nat) [HVObject 3%nat; HVObject 3%nat]) 2%nat);
    reflexivity.
Defined.

Lemma constructor_view_in_buffer_witness :
  exists self buffer r1 offset b1 view,
    @HVObject (@double host0) 2%nat = HVObject self
    /\ dyncastArg_JSArrayBuffer (H := host0) runtime0
         (construct (HVObject 2%nat) [HVObject 1%nat; n 8]) 0 = Some buffer
    /\ toIndex (Host := host0) runtime0
         (getArg (construct (HVObject 2%nat) [HVObject 1%nat; n 8]) 1)
       = (r1, RETURNED offset)
    /\ getArrayBuffer r1 buffer = Some b1
    /\ getDataView runtime9 self = Some view
    /\ buffer_ view = Some buffer
    /\ offset_ view = indexValue offset
    /\ viewInBuffer view b1.
Proof.
  apply (constructor_view_in_buffer (H := host0) runtime0
           (construct (HVObject 2%nat) [HVObject 1%nat; n 8]) runtime9 (HVObject 2%nat)).
  reflexivity.
Defined.

Lemma get_is_read_only_witness :
  runtime0
  = match dyncastThis_JSDataView (H := host0) runtime0 (call (HVObject 4%nat) [n 6]) with
    | None => runtime0
    | Some _ => fst (toIndex (Host := host0) runtime0
                       (getArg (call (HVObject 4%nat) [n 6]) 0))
    end.
Proof.
  apply (get_is_read_only (H := host0) Uint16 runtime0 (call (HVObject 4%nat) [n 6])
           runtime0 (RETURNED (n 0x0708))).
  reflexivity.
Defined.

Lemma accessors_ignore_attached_witness :
  dataViewPrototypeByteLength (H := host0) (detach runtime0 1%nat) (call (HVObject 4%nat) [])
    = Some (detach runtime0 1%nat, RETURNED (n 8))
  /\ dataViewPrototypeBuffer (H := host0) (detach runtime0 1%nat) (call (HVObject 4%nat) [])
    = Some (detach runtime0 1%nat, RETURNED (HVObject 1%nat))
  /\ dataViewPrototypeByteOffset (H := host0) runtime0 (call (HVObject 3%nat) [])
    = Some (runtime0, EXCEPTION (ReceiverTypeError "byteOffset")).
Proof.
  pose proof (accessors_ignore_attached (H := host0) runtime0 (call (HVObject 4%nat) []))
    as (_ & Hview & _).
  destruct (Hview 4%nat wholeView 1%nat eq_refl eq_refl eq_refl (detach runtime0 1%nat)
              (or_intror (ex_intro _ 1%nat eq_refl))) as (Hbuf & Hlen & _).
  split; [exact Hlen|]. split; [exact Hbuf|].
  apply (proj1 (accessors_ignore_attached (H := host0) runtime0 (call (HVObject 3%nat) []))).
  reflexivity.
Defined.

End DataViewExamples.

(** ** Part VI: what the checks of the natives guarantee *)

Module DataViewSafety.
Import DataView DataViewFacts.

Section Safety.
Context `{Host}.

Local Abbreviation HV := (HermesValue double).

Lemma JSDataView_get_Some (T : NumKind) (runtime : Runtime) (view : JSDataView)
    (offset bits : Z) (littleEndian : bool) :
  JSDataView_get T runtime view offset littleEndian = Some bits <->
  exists p b,
    buffer_ view = Some p /\ getArrayBuffer runtime p = Some b
    /\ attached_ b = true
    /\ 0 <= offset_ view + offset
    /\ offset_ view + offset + sizeof T <= size b
    /\ bits = ofBytes (take (Z.to_nat (sizeof T))
                         (drop (Z.to_nat (offset_ view + offset)) (data_ b)))
                littleEndian.
Proof.
  split.
  - unfold JSDataView_get.
    destruct (buffer_ view) as [p|]; simpl; [|discriminate].
    destruct (getArrayBuffer runtime p) as [b|] eqn:Hb; simpl; [|discriminate].
    destruct (attached_ b) eqn:Hatt; simpl; [|discriminate].
    destruct (Z.leb_spec 0 (offset_ view + offset)); simpl; [|discriminate].
    destruct (sublist_lookup _ _ (data_ b)) as [bytes|] eqn:Hsub; simpl; [|discriminate].
    intros [= <-]. apply sublist_lookup_Some' in Hsub as [-> Hfit].
    exists p, b. pose proof (sizeof_bounds T). unfold size.
    repeat split; try assumption; try reflexivity. lia.
  - intros (p & b & Hp & Hb & Hatt & Hlo & Hhi & ->).
    apply JSDataView_get_inside with (p := p); assumption.
Qed.

(** What a returning get<T> has gone through. *)
Lemma dataViewPrototypeGet_returns (T : NumKind) (runtime : Runtime)
    (args : NativeArgs) (r' : Runtime) (v : HV) :
  dataViewPrototypeGet T runtime args = Some (r', RETURNED v) ->
  exists self idx view p b,
    dyncastThis_JSDataView runtime args = Some self
    /\ toIndex runtime (getArg args 0) = (r', RETURNED idx)
    /\ getDataView r' self = Some view
    /\ buffer_ view = Some p /\ getArrayBuffer r' p = Some b
    /\ attached_ b = true
    /\ indexValue idx + sizeof T <= length_ view
    /\ 0 <= offset_ view + indexValue idx
    /\ offset_ view + indexValue idx + sizeof T <= size b
    /\ v = SafeNumericEncoder_encode T
             (ofBytes (take (Z.to_nat (sizeof T))
                         (drop (Z.to_nat (offset_ view + indexValue idx)) (data_ b)))
                (toBoolean (getArg args 1))).
Proof.
  unfold dataViewPrototypeGet.
  destruct (dyncastThis_JSDataView runtime args) as [self|] eqn:Hself; [|discriminate].
  destruct (toIndex runtime (getArg args 0)) as [r1 [idx|e]] eqn:Hidx; [|discriminate].
  destruct (getDataView r1 self) as [view|] eqn:Hview; simpl; [|discriminate].
  destruct (attached r1 view) as [[|]|] eqn:Hatt; simpl; [|discriminate..].
  rewrite uint64_add_index.
  destruct (Z.gtb_spec (indexValue idx + sizeof T) (length_ view)); [discriminate|].
  destruct (JSDataView_get T r1 view (indexValue idx) (toBoolean (getArg args 1)))
    as [bits|] eqn:Hget; simpl; [|discriminate].
  intros [= <- <-].
  apply JSDataView_get_Some in Hget as (p & b & Hp & Hb & Hab & Hlo & Hhi & ->).
  exists self, idx, view, p, b. repeat split; try assumption; try reflexivity; lia.
Qed.

(** What a returning set<T> has gone through, and the runtime it leaves. *)
Lemma dataViewPrototypeSet_returns (T : NumKind) (runtime : Runtime)
    (args : NativeArgs) (r' : Runtime) (v : HV) :
  dataViewPrototypeSet T runtime args = Some (r', RETURNED v) ->
  exists self r1 idx r2 number view p b,
    v = HVUndefined
    /\ dyncastThis_JSDataView runtime args = Some self
    /\ toIndex runtime (getArg args 0) = (r1, RETURNED idx)
    /\ toNumber_RJS r1 (getArg args 1) = (r2, RETURNED number)
    /\ getDataView r2 self = Some view
    /\ buffer_ view = Some p /\ getArrayBuffer r2 p = Some b
    /\ attached_ b = true
    /\ indexValue idx + sizeof T <= length_ view
    /\ 0 <= offset_ view + indexValue idx
    /\ offset_ view + indexValue idx + sizeof T <= size b
    /\ r' = {| heap :=
                 <[p := ArrayBufferCell
                          {| data_ :=
                               take (Z.to_nat (offset_ view + indexValue idx)) (data_ b)
                               ++ toBytes T (toDestType T number) (toBoolean (getArg args 2))
                               ++ drop (Z.to_nat (offset_ view + indexValue idx)
                                        + Z.to_nat (sizeof T)) (data_ b);
                             attached_ := true |}]> (heap r2) |}.
Proof.
  unfold dataViewPrototypeSet.
  destruct (dyncastThis_JSDataView runtime args) as [self|] eqn:Hself; [|discriminate].
  destruct (toIndex runtime (getArg args 0)) as [r1 [idx|e]] eqn:Hidx; [|discriminate].
  destruct (toNumber_RJS r1 (getArg args 1)) as [r2 [number|e]] eqn:Hnum; [|discriminate].
  destruct (getDataView r2 self) as [view|] eqn:Hview; simpl; [|discriminate].
  destruct (attached r2 view) as [[|]|] eqn:Hatt; simpl; [|discriminate..].
  rewrite uint64_add_index.
  destruct (Z.gtb_spec (indexValue idx + sizeof T) (length_ view)); [discriminate|].
  destruct (JSDataView_set T r2 view (indexValue idx) (toDestType T number)
              (toBoolean (getArg args 2))) as [rw|] eqn:Hset; simpl; [|discriminate].
  intros [= <- <-].
  apply JSDataView_set_Some in Hset as (p & b & Hp & Hb & Hab & Hlo & Hhi & ->).
  exists self, r1, idx, r2, number, view, p, b.
  repeat split; try assumption; try reflexivity; lia.
Qed.

Lemma coercedBySet_returned (runtime : Runtime) (args : NativeArgs)
    (self : GCPointer) (r1 r2 : Runtime) (idx : Index) (res : CallResult double double) :
  dyncastThis_JSDataView runtime args = Some self ->
  toIndex runtime (getArg args 0) = (r1, RETURNED idx) ->
  toNumber_RJS r1 (getArg args 1) = (r2, res) ->
  coercedBySet runtime args = r2.
Proof.
  intros Hself Hidx Hnum. unfold coercedBySet. rewrite Hself, Hidx, Hnum. reflexivity.
Qed.

(** X4: the bounds check of get<T> and set<T> is exact for every offset
    toIndex can return, however large: on a view whose window lies inside
    its attached buffer the access goes through when
    offset + sizeof(T) <= view.byteLength, and raises the OutOfBoundsError
    when offset + sizeof(T) > view.byteLength; the 64-bit sum never wraps
    around to let a huge offset pass. *)
Theorem bounds_check_exact (T : NumKind) (runtime : Runtime) (args : NativeArgs)
    (self : GCPointer) (r1 : Runtime) (idx : Index) :
  dyncastThis_JSDataView runtime args = Some self ->
  toIndex runtime (getArg args 0) = (r1, RETURNED idx) ->
  (forall view p b,
     getDataView r1 self = Some view ->
     buffer_ view = Some p -> getArrayBuffer r1 p = Some b ->
     attached_ b = true -> viewInBuffer view b ->
     dataViewPrototypeGet T runtime args
     = if indexValue idx + sizeof T <=? length_ view
       then Some (r1, RETURNED (SafeNumericEncoder_encode T
                    (ofBytes (take (Z.to_nat (sizeof T))
                                (drop (Z.to_nat (offset_ view + indexValue idx)) (data_ b)))
                       (toBoolean (getArg args 1)))))
       else Some (r1, EXCEPTION OutOfBoundsError_get))
  /\ (forall r2 number view p b,
     toNumber_RJS r1 (getArg args 1) = (r2, RETURNED number) ->
     getDataView r2 self = Some view ->
     buffer_ view = Some p -> getArrayBuffer r2 p = Some b ->
     attached_ b = true -> viewInBuffer view b ->
     if indexValue idx + sizeof T <=? length_ view
     then exists r', dataViewPrototypeSet T runtime args = Some (r', RETURNED HVUndefined)
     else dataViewPrototypeSet T runtime args = Some (r2, EXCEPTION OutOfBoundsError_set)).
Proof.
  intros Hself Hidx. pose proof (index_bounds idx) as Hi. split.
  - intros view p b Hview Hp Hb Hatt (Hoff & Hlen & Hfit).
    pose proof (attached_true r1 view p b Hp Hb) as Ha. rewrite Hatt in Ha.
    unfold dataViewPrototypeGet. rewrite Hself, Hidx, Hview. simpl.
    rewrite Ha. simpl. rewrite uint64_add_index.
    destruct (Z.leb_spec (indexValue idx + sizeof T) (length_ view)).
    + rewrite gtb_false by lia.
      rewrite (JSDataView_get_inside T r1 view p b) by (assumption || lia).
      reflexivity.
    + rewrite gtb_true by lia. reflexivity.
  - intros r2 number view p b Hnum Hview Hp Hb Hatt (Hoff & Hlen & Hfit).
    pose proof (attached_true r2 view p b Hp Hb) as Ha. rewrite Hatt in Ha.
    unfold dataViewPrototypeSet. rewrite Hself, Hidx, Hnum, Hview. simpl.
    rewrite Ha. simpl. rewrite uint64_add_index.
    destruct (Z.leb_spec (indexValue idx + sizeof T) (length_ view)).
    + rewrite gtb_false by lia.
      destruct (JSDataView_set T r2 view (indexValue idx) (toDestType T number)
                  (toBoolean (getArg args 2))) as [r'|] eqn:Hset.
      * exists r'. reflexivity.
      * exfalso. assert (Hsome : exists r', JSDataView_set T r2 view (indexValue idx)
            (toDestType T number) (toBoolean (getArg args 2)) = Some r').
        { eexists. apply JSDataView_set_Some. exists p, b.
          repeat split; try eassumption; lia. }
        destruct Hsome as [r' Hr']. congruence.
    + rewrite gtb_true by lia. reflexivity.
Qed.

(** X5: get<T> never reads outside the window of its view: a value it
    returns is decoded from sizeof(T) bytes of an attached buffer that lie
    at positions from view.byteOffset up to, not including,
    view.byteOffset + view.byteLength, and inside the buffer's storage. *)
Theorem get_reads_inside_window (T : NumKind) (runtime : Runtime)
    (args : NativeArgs) (r' : Runtime) (v : HV) :
  dataViewPrototypeGet T runtime args = Some (r', RETURNED v) ->
  exists self view p b pos bytes,
    thisArg args = HVObject self
    /\ getDataView r' self = Some view
    /\ buffer_ view = Some p /\ getArrayBuffer r' p = Some b
    /\ attached_ b = true
    /\ offset_ view <= Z.of_nat pos
    /\ Z.of_nat pos + sizeof T <= offset_ view + length_ view
    /\ sublist_lookup pos (Z.to_nat (sizeof T)) (data_ b) = Some bytes
    /\ v = SafeNumericEncoder_encode T (ofBytes bytes (toBoolean (getArg args 1))).
Proof.
  intros Hget.
  apply dataViewPrototypeGet_returns in Hget
    as (self & idx & view & p & b & Hself & Hidx & Hview & Hp & Hb & Hatt
        & Hin & Hlo & Hhi & ->).
  pose proof (index_bounds idx) as Hi. pose proof (sizeof_bounds T) as Hs.
  exists self, view, p, b, (Z.to_nat (offset_ view + indexValue idx)),
    (take (Z.to_nat (sizeof T))
       (drop (Z.to_nat (offset_ view + indexValue idx)) (data_ b))).
  split.
  { unfold dyncastThis_JSDataView in Hself.
    destruct (thisArg args) as [| | | |q]; try discriminate.
    destruct (getDataView runtime q); congruence. }
  do 4 (split; [assumption|]).
  split; [lia|]. split; [lia|]. split; [|reflexivity].
  apply sublist_lookup_Some. unfold size in Hhi. lia.
Qed.

(** X6: set<T> never writes outside the window of its view.  When it
    returns, the buffer of the view is still attached and has the length it
    had, every byte at a position before view.byteOffset or from
    view.byteOffset + view.byteLength on is as the coercions left it, and
    no other cell of the heap has changed. *)
Theorem set_writes_inside_window (T : NumKind) (runtime : Runtime)
    (args : NativeArgs) (r' : Runtime) (v : HV) :
  dataViewPrototypeSet T runtime args = Some (r', RETURNED v) ->
  exists self view p b b',
    thisArg args = HVObject self
    /\ getDataView (coercedBySet runtime args) self = Some view
    /\ buffer_ view = Some p
    /\ getArrayBuffer (coercedBySet runtime args) p = Some b
    /\ getArrayBuffer r' p = Some b'
    /\ attached_ b = true /\ attached_ b' = true
    /\ length (data_ b') = length (data_ b)
    /\ (forall i : nat,
          Z.of_nat i < offset_ view \/ offset_ view + length_ view <= Z.of_nat i ->
          data_ b' !! i = data_ b !! i)
    /\ (forall q, q <> p -> heap r' !! q = heap (coercedBySet runtime args) !! q).
Proof.
  intros Hset.
  apply dataViewPrototypeSet_returns in Hset
    as (self & r1 & idx & r2 & number & view & p & b & _ & Hself & Hidx & Hnum
        & Hview & Hp & Hb & Hatt & Hin & Hlo & Hhi & ->).
  rewrite (coercedBySet_returned runtime args self r1 r2 idx _ Hself Hidx Hnum).
  pose proof (index_bounds idx) as Hi. pose proof (sizeof_bounds T) as Hs.
  assert (Hfit : (Z.to_nat (offset_ view + indexValue idx)
                  + length (toBytes T (toDestType T number) (toBoolean (getArg args 2)))
                  <= length (data_ b))%nat).
  { rewrite length_toBytes. unfold size in Hhi. lia. }
  pose proof (list_inserts_splice _ _ _ Hfit) as Hsplice.
  rewrite length_toBytes in Hsplice. rewrite <- Hsplice.
  eexists self, view, p, b, _.
  split.
  { unfold dyncastThis_JSDataView in Hself.
    destruct (thisArg args) as [| | | |q]; try discriminate.
    destruct (getDataView runtime q); congruence. }
  do 3 (split; [assumption|]).
  split. { unfold getArrayBuffer. simpl. rewrite lookup_insert_eq. reflexivity. }
  split; [assumption|]. split; [reflexivity|]. simpl.
  split; [apply length_inserts|]. split.
  - intros i [Hbefore | Hafter].
    + apply list_lookup_inserts_lt. lia.
    + apply list_lookup_inserts_ge. rewrite length_toBytes. lia.
  - intros q Hq. apply lookup_insert_ne. congruence.
Qed.

(** The store in the form of the byte-by-byte insertion. *)
Lemma dataViewPrototypeSet_stores (T : NumKind) (runtime : Runtime)
    (args : NativeArgs) (r' : Runtime) (v : HV) :
  dataViewPrototypeSet T runtime args = Some (r', RETURNED v) ->
  exists self r1 idx r2 number view p b,
    dyncastThis_JSDataView runtime args = Some self
    /\ thisArg args = HVObject self
    /\ toIndex runtime (getArg args 0) = (r1, RETURNED idx)
    /\ toNumber_RJS r1 (getArg args 1) = (r2, RETURNED number)
    /\ getDataView r2 self = Some view
    /\ buffer_ view = Some p /\ getArrayBuffer r2 p = Some b
    /\ attached_ b = true
    /\ indexValue idx + sizeof T <= length_ view
    /\ 0 <= offset_ view + indexValue idx
    /\ offset_ view + indexValue idx + sizeof T <= size b
    /\ r' = {| heap :=
                 <[p := ArrayBufferCell
                          {| data_ :=
                               list_inserts (Z.to_nat (offset_ view + indexValue idx))
                                 (toBytes T (toDestType T number) (toBoolean (getArg args 2)))
                                 (data_ b);
                             attached_ := true |}]> (heap r2) |}.
Proof.
  intros Hset.
  apply dataViewPrototypeSet_returns in Hset
    as (self & r1 & idx & r2 & number & view & p & b & _ & Hself & Hidx & Hnum
        & Hview & Hp & Hb & Hatt & Hin & Hlo & Hhi & ->).
  pose proof (sizeof_bounds T) as Hs.
  assert (Hfit : (Z.to_nat (offset_ view + indexValue idx)
                  + length (toBytes T (toDestType T number) (toBoolean (getArg args 2)))
                  <= length (data_ b))%nat).
  { rewrite length_toBytes. unfold size in Hhi. lia. }
  pose proof (list_inserts_splice _ _ _ Hfit) as Hsplice.
  rewrite length_toBytes in Hsplice. rewrite <- Hsplice.
  exists self, r1, idx, r2, number, view, p, b.
  split; [assumption|]. split.
  { unfold dyncastThis_JSDataView in Hself.
    destruct (thisArg args) as [| | | |q]; try discriminate.
    destruct (getDataView runtime q); congruence. }
  repeat split; assumption.
Qed.

(** A view cell and a buffer cell are never the same cell, so storing a
    buffer leaves every view where it was. *)
Lemma getDataView_insert_buffer (runtime : Runtime) (p self : GCPointer)
    (b b' : JSArrayBuffer) :
  getArrayBuffer runtime p = Some b ->
  getDataView {| heap := <[p := ArrayBufferCell b']> (heap runtime) |} self
  = getDataView runtime self.
Proof.
  intros Hb. unfold getDataView. simpl. destruct (decide (p = self)) as [->|Hne].
  - rewrite lookup_insert_eq. unfold getArrayBuffer in Hb.
    destruct (heap runtime !! self) as [[| |]|]; congruence.
  - rewrite lookup_insert_ne by assumption. reflexivity.
Qed.

Lemma getArrayBuffer_insert_buffer (runtime : Runtime) (p q : GCPointer)
    (b' : JSArrayBuffer) :
  getArrayBuffer {| heap := <[p := ArrayBufferCell b']> (heap runtime) |} q
  = if decide (p = q) then Some b' else getArrayBuffer runtime q.
Proof.
  unfold getArrayBuffer. simpl. destruct (decide (p = q)) as [->|Hne].
  - rewrite lookup_insert_eq. reflexivity.
  - rewrite lookup_insert_ne by assumption. reflexivity.
Qed.

(** The codec of get<T>/set<T>: the bytes of a value read back as the value
    reduced to the width of T, in either byte order. *)
Lemma ofLeBytes_toLeBytes (k : nat) (v : Z) :
  ofLeBytes (toLeBytes k v) = v mod 256 ^ Z.of_nat k.
Proof.
  revert v. induction k as [|k IH]; intros v.
  - simpl. rewrite Z.mod_1_r. reflexivity.
  - cbn [toLeBytes ofLeBytes]. rewrite IH, Nat2Z.inj_succ, Z.pow_succ_r by lia.
    rewrite Z.rem_mul_r by lia. reflexivity.
Qed.

Lemma ofBytes_toBytes (T : NumKind) (v : Z) (littleEndian : bool) :
  ofBytes (toBytes T v littleEndian) littleEndian = v mod 2 ^ (8 * sizeof T).
Proof.
  unfold ofBytes, toBytes.
  assert (Hle : ofLeBytes (toLeBytes (Z.to_nat (sizeof T)) v) = v mod 2 ^ (8 * sizeof T)).
  { rewrite ofLeBytes_toLeBytes. pose proof (sizeof_bounds T).
    rewrite Z2Nat.id by lia. change 256 with (2 ^ 8).
    rewrite <- Z.pow_mul_r by lia. reflexivity. }
  destruct littleEndian; [exact Hle|]. rewrite rev_involutive. exact Hle.
Qed.

Lemma take_drop_inserts_same (i : nat) (k l : list Z) :
  (i + length k <= length l)%nat ->
  take (length k) (drop i (list_inserts i k l)) = k.
Proof.
  intros Hfit. rewrite list_inserts_splice by assumption.
  rewrite drop_app_length' by (rewrite length_take; lia).
  apply take_app_length.
Qed.

Lemma take_drop_inserts_disjoint (i j m : nat) (k l : list Z) :
  (j + m <= i \/ i + length k <= j)%nat ->
  take m (drop j (list_inserts i k l)) = take m (drop j l).
Proof.
  intros Hdis. apply list_eq. intros x.
  destruct (decide (x < m)%nat) as [Hx|Hx].
  - rewrite !lookup_take_lt, !lookup_drop by assumption.
    destruct Hdis as [Hbefore|Hafter].
    + apply list_lookup_inserts_lt. lia.
    + apply list_lookup_inserts_ge. lia.
  - rewrite !lookup_take_ge by lia. reflexivity.
Qed.

(** X7: a value stored by set<T> is what get<T> reads back.  After a
    set<T>(offset, value, littleEndian) that returned, a get<T> through the
    same view at the same offset and with the same byte order, whose offset
    coercion leaves the runtime alone, returns the stored value as a T: the
    number toDestType made of it, reduced to the 8 * sizeof(T) bits that
    were written. *)
Theorem set_then_get (T : NumKind) (runtime : Runtime) (args : NativeArgs)
    (r' : Runtime) (v : HV) (r1 r2 : Runtime) (idx : Index) (number : double)
    (args' : NativeArgs) (idx' : Index) :
  dataViewPrototypeSet T runtime args = Some (r', RETURNED v) ->
  toIndex runtime (getArg args 0) = (r1, RETURNED idx) ->
  toNumber_RJS r1 (getArg args 1) = (r2, RETURNED number) ->
  thisArg args' = thisArg args ->
  toIndex r' (getArg args' 0) = (r', RETURNED idx') ->
  indexValue idx' = indexValue idx ->
  toBoolean (getArg args' 1) = toBoolean (getArg args 2) ->
  dataViewPrototypeGet T r' args'
  = Some (r', RETURNED (SafeNumericEncoder_encode T
                          (toDestType T number mod 2 ^ (8 * sizeof T)))).
Proof.
  intros Hset Hidx Hnum Hthis Hidx' Hsame Hle.
  apply dataViewPrototypeSet_stores in Hset
    as (self & r1' & idx0 & r2' & number0 & view & p & b & Hself & Hself' & Hidx0 & Hnum0
        & Hview & Hp & Hb & Hatt & Hin & Hlo & Hhi & ->).
  rewrite Hidx in Hidx0. injection Hidx0 as <- <-.
  rewrite Hnum in Hnum0. injection Hnum0 as <- <-.
  pose proof (sizeof_bounds T) as Hs.
  set (bytes := toBytes T (toDestType T number) (toBoolean (getArg args 2))) in *.
  set (pos := Z.to_nat (offset_ view + indexValue idx)) in *.
  set (b' := {| data_ := list_inserts pos bytes (data_ b); attached_ := true |}) in *.
  set (rw := {| heap := <[p := ArrayBufferCell b']> (heap r2) |}) in *.
  assert (Hlenb : length bytes = Z.to_nat (sizeof T)) by apply length_toBytes.
  assert (Hfit : (pos + length bytes <= length (data_ b))%nat).
  { unfold size in Hhi. subst pos. lia. }
  assert (Hview' : getDataView rw self = Some view).
  { unfold rw. rewrite (getDataView_insert_buffer r2 p self b b' Hb). exact Hview. }
  assert (Hb' : getArrayBuffer rw p = Some b').
  { unfold rw. rewrite getArrayBuffer_insert_buffer. destruct (decide (p = p)); congruence. }
  assert (Hdyn : dyncastThis_JSDataView rw args' = Some self).
  { unfold dyncastThis_JSDataView. rewrite Hthis, Hself', Hview'. reflexivity. }
  unfold dataViewPrototypeGet. rewrite Hdyn, Hidx', Hview'. simpl.
  rewrite (attached_true rw view p b' Hp Hb'). simpl.
  rewrite uint64_add_index, Hsame, gtb_false by assumption.
  rewrite (JSDataView_get_inside T rw view p b'); try assumption; try reflexivity.
  - simpl. fold pos. rewrite <- Hlenb, take_drop_inserts_same by assumption.
    unfold bytes. rewrite Hle, ofBytes_toBytes. reflexivity.
  - unfold size. simpl. rewrite length_inserts. exact Hhi.
Qed.

(** X8: a store leaves the other elements alone.  After a set<T> that
    returned, a get<T2> through the same view at an offset whose sizeof(T2)
    bytes do not overlap the sizeof(T) bytes written gives what it gave in
    the runtime the store started from (the offset coercion of the get
    leaving either runtime alone). *)
Theorem set_keeps_other_elements (T T2 : NumKind) (runtime : Runtime)
    (args : NativeArgs) (r' : Runtime) (v : HV) (r1 r2 : Runtime) (idx : Index)
    (number : double) (args2 : NativeArgs) (j : Index)
    (res : CallResult double HV) :
  dataViewPrototypeSet T runtime args = Some (r', RETURNED v) ->
  toIndex runtime (getArg args 0) = (r1, RETURNED idx) ->
  toNumber_RJS r1 (getArg args 1) = (r2, RETURNED number) ->
  thisArg args2 = thisArg args ->
  toIndex r2 (getArg args2 0) = (r2, RETURNED j) ->
  toIndex r' (getArg args2 0) = (r', RETURNED j) ->
  indexValue j + sizeof T2 <= indexValue idx
    \/ indexValue idx + sizeof T <= indexValue j ->
  dataViewPrototypeGet T2 r2 args2 = Some (r2, res) ->
  dataViewPrototypeGet T2 r' args2 = Some (r', res).
Proof.
  intros Hset Hidx Hnum Hthis Hj2 Hj' Hdis Hget.
  apply dataViewPrototypeSet_stores in Hset
    as (self & r1' & idx0 & r2' & number0 & view & p & b & Hself & Hself' & Hidx0 & Hnum0
        & Hview & Hp & Hb & Hatt & Hin & Hlo & Hhi & ->).
  rewrite Hidx in Hidx0. injection Hidx0 as <- <-.
  rewrite Hnum in Hnum0. injection Hnum0 as <- <-.
  pose proof (sizeof_bounds T) as Hs. pose proof (sizeof_bounds T2) as Hs2.
  pose proof (index_bounds idx) as Hi. pose proof (index_bounds j) as Hjb.
  set (bytes := toBytes T (toDestType T number) (toBoolean (getArg args 2))) in *.
  set (pos := Z.to_nat (offset_ view + indexValue idx)) in *.
  set (b' := {| data_ := list_inserts pos bytes (data_ b); attached_ := true |}) in *.
  set (rw := {| heap := <[p := ArrayBufferCell b']> (heap r2) |}) in *.
  assert (Hlenb : length bytes = Z.to_nat (sizeof T)) by apply length_toBytes.
  assert (Hview' : getDataView rw self = Some view).
  { unfold rw. rewrite (getDataView_insert_buffer r2 p self b b' Hb). exact Hview. }
  assert (Hb' : getArrayBuffer rw p = Some b').
  { unfold rw. rewrite getArrayBuffer_insert_buffer. destruct (decide (p = p)); congruence. }
  assert (Hdyn2 : dyncastThis_JSDataView r2 args2 = Some self).
  { unfold dyncastThis_JSDataView. rewrite Hthis, Hself', Hview. reflexivity. }
  assert (Hdyn' : dyncastThis_JSDataView rw args2 = Some self).
  { unfold dyncastThis_JSDataView. rewrite Hthis, Hself', Hview'. reflexivity. }
  assert (Hread : JSDataView_get T2 rw view (indexValue j) (toBoolean (getArg args2 1))
                  = JSDataView_get T2 r2 view (indexValue j) (toBoolean (getArg args2 1))).
  { unfold JSDataView_get. rewrite Hp. simpl. rewrite Hb, Hb'. simpl. rewrite Hatt.
    destruct (Z.leb_spec 0 (offset_ view + indexValue j)); [|reflexivity]. simpl.
    unfold sublist_lookup. rewrite length_inserts.
    rewrite take_drop_inserts_disjoint; [reflexivity|].
    rewrite Hlenb. subst pos. lia. }
  unfold dataViewPrototypeGet in *.
  rewrite Hdyn2, Hj2, Hview in Hget. rewrite Hdyn', Hj', Hview'.
  simpl in *.
  rewrite (attached_true r2 view p b Hp Hb), Hatt in Hget.
  rewrite (attached_true rw view p b' Hp Hb'). simpl in *.
  destruct (uint64_add (indexValue j) (sizeof T2) >? length_ view).
  - injection Hget as <-. reflexivity.
  - rewrite Hread.
    destruct (JSDataView_get T2 r2 view (indexValue j) (toBoolean (getArg args2 1)));
      simpl in *; [|discriminate].
    injection Hget as <-. reflexivity.
Qed.

(** *** The heap invariant *)

Lemma viewInBufferb_spec (view : JSDataView) (b : JSArrayBuffer) :
  viewInBufferb view b = true <-> viewInBuffer view b.
Proof.
  unfold viewInBufferb, viewInBuffer. rewrite !andb_true_iff, !Z.leb_le. tauto.
Qed.

(** Whether a view is in order depends on the buffers only through their
    lengths and attached flags. *)
Lemma viewOK_same_buffers (r r' : Runtime) (view : JSDataView) :
  (forall q, (fun b => (size b, attached_ b)) <$> getArrayBuffer r' q
             = (fun b => (size b, attached_ b)) <$> getArrayBuffer r q) ->
  viewOK r' view = viewOK r view.
Proof.
  intros Hsame. unfold viewOK. destruct (buffer_ view) as [p|]; [|reflexivity].
  specialize (Hsame p).
  destruct (getArrayBuffer r' p) as [b'|], (getArrayBuffer r p) as [b|];
    simpl in Hsame; try discriminate; [|reflexivity].
  injection Hsame as Hsize Hatt. unfold viewInBufferb. rewrite Hsize, Hatt. reflexivity.
Qed.

Lemma heapOK_view (runtime : Runtime) (self : GCPointer) (view : JSDataView) :
  heapOK runtime -> getDataView runtime self = Some view -> viewOK runtime view = true.
Proof.
  intros Hok Hview. unfold getDataView in Hview.
  destruct (heap runtime !! self) as [[| v |]|] eqn:Hcell; try discriminate.
  injection Hview as ->. apply (map_Forall_lookup_1 _ _ _ _ Hok Hcell).
Qed.

(** In a heap in order, a view with a buffer leads to a buffer cell, and
    to one that holds its window if it is attached. *)
Lemma heapOK_buffer (runtime : Runtime) (self p : GCPointer) (view : JSDataView) :
  heapOK runtime -> getDataView runtime self = Some view -> buffer_ view = Some p ->
  exists b, getArrayBuffer runtime p = Some b
            /\ (attached_ b = true -> viewInBuffer view b).
Proof.
  intros Hok Hview Hp. pose proof (heapOK_view runtime self view Hok Hview) as Hv.
  unfold viewOK in Hv. rewrite Hp in Hv.
  destruct (getArrayBuffer runtime p) as [b|]; [|discriminate].
  exists b. split; [reflexivity|]. intros Hatt. rewrite Hatt in Hv.
  apply viewInBufferb_spec. exact Hv.
Qed.

(** X9: in a heap where every view is in order, the checks of get<T> and
    set<T> are enough: once the coercions have returned, the call on a view
    that has its buffer ends with a value or with one of its errors, and
    never reaches bytes outside the buffer's storage. *)
Theorem checked_access_is_defined (T : NumKind) (runtime : Runtime)
    (args : NativeArgs) (self : GCPointer) (r1 : Runtime) (idx : Index) :
  dyncastThis_JSDataView runtime args = Some self ->
  toIndex runtime (getArg args 0) = (r1, RETURNED idx) ->
  (forall view p,
     getDataView r1 self = Some view -> buffer_ view = Some p -> heapOK r1 ->
     exists res, dataViewPrototypeGet T runtime args = Some (r1, res))
  /\ (forall r2 number view p,
     toNumber_RJS r1 (getArg args 1) = (r2, RETURNED number) ->
     getDataView r2 self = Some view -> buffer_ view = Some p -> heapOK r2 ->
     exists r' res, dataViewPrototypeSet T runtime args = Some (r', res)).
Proof.
  intros Hself Hidx. pose proof (index_bounds idx) as Hi.
  pose proof (sizeof_bounds T) as Hs. split.
  - intros view p Hview Hp Hok.
    destruct (heapOK_buffer r1 self p view Hok Hview Hp) as (b & Hb & Hin).
    unfold dataViewPrototypeGet. rewrite Hself, Hidx, Hview. simpl.
    rewrite (attached_true r1 view p b Hp Hb).
    destruct (attached_ b) eqn:Hatt; simpl; [|eauto].
    rewrite uint64_add_index.
    destruct (Z.gtb_spec (indexValue idx + sizeof T) (length_ view)); [eauto|].
    destruct (Hin eq_refl) as (Hoff & Hlen & Hfit).
    rewrite (JSDataView_get_inside T r1 view p b) by (assumption || lia).
    simpl. eauto.
  - intros r2 number view p Hnum Hview Hp Hok.
    destruct (heapOK_buffer r2 self p view Hok Hview Hp) as (b & Hb & Hin).
    unfold dataViewPrototypeSet. rewrite Hself, Hidx, Hnum, Hview. simpl.
    rewrite (attached_true r2 view p b Hp Hb).
    destruct (attached_ b) eqn:Hatt; simpl; [|eauto].
    rewrite uint64_add_index.
    destruct (Z.gtb_spec (indexValue idx + sizeof T) (length_ view)); [eauto|].
    destruct (Hin eq_refl) as (Hoff & Hlen & Hfit).
    destruct (JSDataView_set T r2 view (indexValue idx) (toDestType T number)
                (toBoolean (getArg args 2))) as [rw|] eqn:Hset; simpl; [eauto|].
    exfalso. assert (Hsome : exists rw, JSDataView_set T r2 view (indexValue idx)
        (toDestType T number) (toBoolean (getArg args 2)) = Some rw).
    { eexists. apply JSDataView_set_Some. exists p, b.
      repeat split; try eassumption; lia. }
    destruct Hsome as [rw Hrw]. congruence.
Qed.

Lemma dataViewPrototypeSet_raises (T : NumKind) (runtime : Runtime)
    (args : NativeArgs) (r' : Runtime) (e : JSError double) :
  dataViewPrototypeSet T runtime args = Some (r', EXCEPTION e) ->
  r' = coercedBySet runtime args.
Proof.
  unfold dataViewPrototypeSet, coercedBySet.
  destruct (dyncastThis_JSDataView runtime args) as [self|];
    [|intros [= <- _]; reflexivity].
  destruct (toIndex runtime (getArg args 0)) as [r1 [idx|e1]];
    [|intros [= <- _]; reflexivity].
  destruct (toNumber_RJS r1 (getArg args 1)) as [r2 [number|e2]]; simpl;
    [|intros [= <- _]; reflexivity].
  destruct (getDataView r2 self) as [view|]; simpl; [|discriminate].
  destruct (attached r2 view) as [[|]|]; simpl;
    [|intros [= <- _]; reflexivity | discriminate].
  destruct (uint64_add (indexValue idx) (sizeof T) >? length_ view);
    [intros [= <- _]; reflexivity|].
  destruct (JSDataView_set T r2 view (indexValue idx) (toDestType T number)
              (toBoolean (getArg args 2))); simpl; discriminate.
Qed.

(** X10: set<T> keeps the heap in order: if every view is in order in the
    runtime the coercions left, every view is in order in the runtime the
    call ends in, whether it wrote or raised. *)
Theorem set_keeps_heap_in_order (T : NumKind) (runtime : Runtime)
    (args : NativeArgs) (r' : Runtime) (res : CallResult double HV) :
  heapOK (coercedBySet runtime args) ->
  dataViewPrototypeSet T runtime args = Some (r', res) ->
  heapOK r'.
Proof.
  intros Hok Hset. destruct res as [v|e].
  2:{ rewrite (dataViewPrototypeSet_raises T runtime args r' e Hset). exact Hok. }
  apply dataViewPrototypeSet_stores in Hset
    as (self & r1 & idx & r2 & number & view & p & b & Hself & _ & Hidx & Hnum
        & Hview & Hp & Hb & Hatt & Hin & Hlo & Hhi & ->).
  rewrite (coercedBySet_returned runtime args self r1 r2 idx _ Hself Hidx Hnum) in Hok.
  set (b' := {| data_ := list_inserts (Z.to_nat (offset_ view + indexValue idx))
                           (toBytes T (toDestType T number) (toBoolean (getArg args 2)))
                           (data_ b);
                attached_ := true |}).
  set (rw := {| heap := <[p := ArrayBufferCell b']> (heap r2) |}).
  assert (Hsame : forall q, (fun x => (size x, attached_ x)) <$> getArrayBuffer rw q
                            = (fun x => (size x, attached_ x)) <$> getArrayBuffer r2 q).
  { intros q. unfold rw. rewrite getArrayBuffer_insert_buffer.
    destruct (decide (p = q)) as [<-|]; [|reflexivity].
    rewrite Hb. simpl. unfold size. simpl. rewrite length_inserts, Hatt. reflexivity. }
  unfold heapOK. simpl. apply map_Forall_insert_2; [reflexivity|].
  apply (map_Forall_impl _ _ _ Hok). intros q cell Hcell.
  destruct cell as [| other |]; simpl in *; try reflexivity.
  rewrite (viewOK_same_buffers r2 rw other Hsame). exact Hcell.
Qed.

(** *** The constructor *)

(** What a returning constructor has gone through, and the runtime it
    leaves. *)
Lemma dataViewConstructor_returns (runtime : Runtime) (args : NativeArgs)
    (r' : Runtime) (v : HV) :
  dataViewConstructor runtime args = Some (r', RETURNED v) ->
  exists self buffer r1 offset b1 len old,
    thisArg args = HVObject self /\ v = HVObject self
    /\ getArg args 0 = HVObject buffer
    /\ toIndex runtime (getArg args 1) = (r1, RETURNED offset)
    /\ getArrayBuffer r1 buffer = Some b1
    /\ (if isUndefined (getArg args 2)
        then len = size b1 - indexValue offset
        else exists viewLength,
               toIndex r1 (getArg args 2)
               = (coercedByConstructor runtime args, RETURNED viewLength)
               /\ len = indexValue viewLength)
    /\ 0 <= len /\ indexValue offset + len <= size b1
    /\ getDataView (coercedByConstructor runtime args) self = Some old
    /\ r' = {| heap :=
                 <[self := DataViewCell {| buffer_ := Some buffer;
                                           offset_ := indexValue offset;
                                           length_ := len |}]>
                   (heap (coercedByConstructor runtime args)) |}.
Proof.
  intros Hnew. unfold dataViewConstructor, vmcastThis_JSDataView in Hnew.
  unfold coercedByConstructor.
  destruct (isConstructorCall args); simpl in Hnew; [|discriminate].
  destruct (dyncastThis_JSDataView runtime args) as [self|] eqn:Hself;
    simpl in Hnew; [|discriminate].
  assert (Hthis : thisArg args = HVObject self).
  { unfold dyncastThis_JSDataView in Hself.
    destruct (thisArg args) as [| | | |q]; try discriminate.
    destruct (getDataView runtime q); congruence. }
  destruct (dyncastArg_JSArrayBuffer runtime args 0) as [buffer|] eqn:Hbuffer;
    [|discriminate].
  assert (Harg : getArg args 0 = HVObject buffer).
  { unfold dyncastArg_JSArrayBuffer in Hbuffer.
    destruct (getArg args 0) as [| | | |q]; try discriminate.
    destruct (getArrayBuffer runtime q); congruence. }
  destruct (toIndex runtime (getArg args 1)) as [r1 [offset|e]] eqn:Hoffset;
    [|discriminate].
  destruct (getArrayBuffer r1 buffer) as [b|] eqn:Hb; simpl in Hnew; [|discriminate].
  pose proof (index_bounds offset) as Hoff.
  destruct (Z.gtb_spec (indexValue offset) (size b)) as [|Hfit]; [discriminate|].
  simpl.
  destruct (isUndefined (getArg args 2)).
  - unfold setBuffer in Hnew.
    destruct (getDataView r1 self) as [old|] eqn:Hold; simpl in Hnew; [|discriminate].
    injection Hnew as <- <-.
    exists self, buffer, r1, offset, b, (size b - indexValue offset), old.
    rewrite Hthis. repeat split; try assumption; try reflexivity; lia.
  - destruct (toIndex r1 (getArg args 2)) as [r2 [viewLength|e]] eqn:Hlen;
      [|discriminate].
    pose proof (index_bounds viewLength) as Hvl.
    destruct (Z.gtb_spec (indexValue offset + indexValue viewLength) (size b));
      [discriminate|].
    unfold setBuffer in Hnew. simpl.
    destruct (getDataView r2 self) as [old|] eqn:Hold; simpl in Hnew; [|discriminate].
    injection Hnew as <- <-.
    exists self, buffer, r1, offset, b, (indexValue viewLength), old.
    rewrite Hthis. split; [reflexivity|]. split; [reflexivity|].
    split; [assumption|]. split; [reflexivity|]. split; [assumption|].
    split; [exists viewLength; rewrite ?Hlen; split; reflexivity|].
    repeat split; try assumption; try reflexivity; lia.
Qed.

(** X11: what the constructor stores is what the accessors give back.
    After `new DataView(buffer, byteOffset, byteLength)` has returned, on
    the object it returned and in the runtime it left, the buffer accessor
    returns the buffer argument itself, byteOffset returns the coerced
    offset, and byteLength returns the coerced length, or, when the length
    argument is undefined, the buffer's byte length read after the offset
    coercion minus the offset. *)
Theorem construct_then_accessors (runtime : Runtime) (args : NativeArgs)
    (r' : Runtime) (v : HV) (r1 : Runtime) (offset : Index) (b1 : JSArrayBuffer)
    (buffer : GCPointer) (args' : NativeArgs) :
  dataViewConstructor runtime args = Some (r', RETURNED v) ->
  toIndex runtime (getArg args 1) = (r1, RETURNED offset) ->
  getArg args 0 = HVObject buffer ->
  getArrayBuffer r1 buffer = Some b1 ->
  thisArg args' = v ->
  dataViewPrototypeBuffer r' args' = Some (r', RETURNED (getArg args 0))
  /\ dataViewPrototypeByteOffset r' args'
     = Some (r', RETURNED (encodeNumberValue (indexValue offset)))
  /\ (isUndefined (getArg args 2) = true ->
      dataViewPrototypeByteLength r' args'
      = Some (r', RETURNED (encodeNumberValue (size b1 - indexValue offset))))
  /\ (forall r2 viewLength,
      isUndefined (getArg args 2) = false ->
      toIndex r1 (getArg args 2) = (r2, RETURNED viewLength) ->
      dataViewPrototypeByteLength r' args'
      = Some (r', RETURNED (encodeNumberValue (indexValue viewLength)))).
Proof.
  intros Hnew Hoffset Harg Hb1 Hthis'.
  apply dataViewConstructor_returns in Hnew
    as (self & buffer0 & r1' & offset0 & b0 & len & old & Hthis & -> & Harg0 & Hoffset0
        & Hb0 & Hlen & _ & _ & _ & ->).
  rewrite Hoffset in Hoffset0. injection Hoffset0 as <- <-.
  rewrite Harg in Harg0. injection Harg0 as <-.
  rewrite Hb1 in Hb0. injection Hb0 as <-.
  set (view := {| buffer_ := Some buffer; offset_ := indexValue offset; length_ := len |}).
  set (rn := {| heap := <[self := DataViewCell view]>
                          (heap (coercedByConstructor runtime args)) |}).
  assert (Hview : getDataView rn self = Some view) by apply getDataView_insert_view.
  assert (Hdyn : dyncastThis_JSDataView rn args' = Some self).
  { unfold dyncastThis_JSDataView. rewrite Hthis', Hview. reflexivity. }
  unfold dataViewPrototypeBuffer, dataViewPrototypeByteOffset,
    dataViewPrototypeByteLength. rewrite Hdyn, Hview, Harg. simpl.
  split; [reflexivity|]. split; [reflexivity|]. split.
  - intros Hundef. rewrite Hundef in Hlen. rewrite Hlen. reflexivity.
  - intros r2 viewLength Hdef Hvl. rewrite Hdef in Hlen.
    destruct Hlen as (viewLength0 & Hvl0 & ->).
    rewrite Hvl in Hvl0. injection Hvl0 as _ <-. reflexivity.
Qed.

(** X12: the constructor touches one cell.  When it raises, the runtime is
    the one it was called in or the one a coercion left: no view has been
    stored.  When it returns, the receiver's cell holds the new view and
    every other cell of the heap, every buffer among them, is as the last
    coercion left it. *)
Theorem constructor_touches_one_cell (runtime : Runtime) (args : NativeArgs)
    (r' : Runtime) (res : CallResult double HV) :
  dataViewConstructor runtime args = Some (r', res) ->
  match res with
  | EXCEPTION _ =>
      r' = runtime
      \/ r' = fst (toIndex runtime (getArg args 1))
      \/ r' = coercedByConstructor runtime args
  | RETURNED v =>
      exists self,
        thisArg args = HVObject self /\ v = HVObject self
        /\ forall q, q <> self ->
             heap r' !! q = heap (coercedByConstructor runtime args) !! q
  end.
Proof.
  intros Hnew. destruct res as [v|e].
  - apply dataViewConstructor_returns in Hnew
      as (self & buffer & r1 & offset & b1 & len & old & Hthis & -> & _ & _ & _ & _
          & _ & _ & _ & ->).
    exists self. split; [assumption|]. split; [reflexivity|].
    intros q Hq. simpl. apply lookup_insert_ne. congruence.
  - unfold dataViewConstructor, coercedByConstructor in *.
    destruct (isConstructorCall args); simpl in Hnew;
      [|injection Hnew as <- _; left; reflexivity].
    destruct (vmcastThis_JSDataView runtime args) as [self|]; simpl in Hnew;
      [|discriminate].
    destruct (dyncastArg_JSArrayBuffer runtime args 0) as [buffer|];
      [|injection Hnew as <- _; left; reflexivity].
    destruct (toIndex runtime (getArg args 1)) as [r1 [offset|e1]]; simpl;
      [|injection Hnew as <- _; right; left; reflexivity].
    destruct (getArrayBuffer r1 buffer) as [b|]; simpl in Hnew; [|discriminate].
    destruct (indexValue offset >? size b);
      [injection Hnew as <- _; right; left; reflexivity|].
    destruct (isUndefined (getArg args 2)).
    + destruct (setBuffer r1 self buffer (indexValue offset) (size b - indexValue offset));
        simpl in Hnew; discriminate.
    + destruct (toIndex r1 (getArg args 2)) as [r2 [viewLength|e2]]; simpl;
        [|injection Hnew as <- _; right; right; reflexivity].
      destruct (indexValue offset + indexValue viewLength >? size b);
        [injection Hnew as <- _; right; right; reflexivity|].
      destruct (setBuffer r2 self buffer (indexValue offset) (indexValue viewLength));
        simpl in Hnew; discriminate.
Qed.

(** X13: the constructor keeps the heap in order, also when the length
    coercion has detached the buffer after its length was read.  Let every
    view be in order in the runtime the coercions left, and let the buffer
    argument there still be a buffer that, if it is attached, is no shorter
    than when its length was read; then in the runtime the constructor
    returns in every view, the new one included, is in order. *)
Theorem constructor_keeps_heap_in_order (runtime : Runtime) (args : NativeArgs)
    (r' : Runtime) (v : HV) (buffer : GCPointer) (b1 bc : JSArrayBuffer) :
  dataViewConstructor runtime args = Some (r', RETURNED v) ->
  getArg args 0 = HVObject buffer ->
  getArrayBuffer (fst (toIndex runtime (getArg args 1))) buffer = Some b1 ->
  getArrayBuffer (coercedByConstructor runtime args) buffer = Some bc ->
  (attached_ bc = true -> size b1 <= size bc) ->
  heapOK (coercedByConstructor runtime args) ->
  heapOK r'.
Proof.
  intros Hnew Harg Hb1 Hbc Hstable Hok.
  apply dataViewConstructor_returns in Hnew
    as (self & buffer0 & r1 & offset & b0 & len & old & Hthis & -> & Harg0 & Hoffset
        & Hb0 & _ & Hlen & Hsum & Hold & ->).
  rewrite Harg in Harg0. injection Harg0 as <-.
  rewrite Hoffset in Hb1. simpl in Hb1. rewrite Hb1 in Hb0. injection Hb0 as <-.
  pose proof (index_bounds offset) as Hoff.
  set (rc := coercedByConstructor runtime args) in *.
  set (view := {| buffer_ := Some buffer; offset_ := indexValue offset; length_ := len |}).
  set (rn := {| heap := <[self := DataViewCell view]> (heap rc) |}).
  assert (Hbuf : forall q, getArrayBuffer rn q = getArrayBuffer rc q).
  { intros q. unfold getArrayBuffer, rn. simpl.
    destruct (decide (self = q)) as [<-|Hne].
    - rewrite lookup_insert_eq. unfold getDataView in Hold.
      destruct (heap rc !! self) as [[| |]|]; congruence.
    - rewrite lookup_insert_ne by assumption. reflexivity. }
  assert (Hsame : forall q, (fun x => (size x, attached_ x)) <$> getArrayBuffer rn q
                            = (fun x => (size x, attached_ x)) <$> getArrayBuffer rc q).
  { intros q. rewrite Hbuf. reflexivity. }
  unfold heapOK. simpl. apply map_Forall_insert_2.
  - simpl. unfold viewOK. simpl. rewrite Hbuf, Hbc.
    destruct (attached_ bc); [|reflexivity]. simpl.
    apply viewInBufferb_spec. unfold viewInBuffer. simpl.
    specialize (Hstable eq_refl). lia.
  - apply (map_Forall_impl _ _ _ Hok). intros q cell Hcell.
    destruct cell as [| other |]; simpl in *; try reflexivity.
    rewrite (viewOK_same_buffers rc rn other Hsame). exact Hcell.
Qed.

(** X14: element offsets of a constructed view are buffer positions.  After
    `new DataView(buffer, byteOffset, ...)` has returned, while the buffer
    is attached and no shorter than when its length was read, a get<T> at
    offset i on the new view (its offset coercion leaving the runtime
    alone) returns the number decoded from the sizeof(T) bytes of the
    buffer at position byteOffset + i when i + sizeof(T) is within the
    view's length, and raises the OutOfBoundsError otherwise. *)
Theorem construct_then_get (T : NumKind) (runtime : Runtime) (args : NativeArgs)
    (r' : Runtime) (v : HV) (r1 : Runtime) (offset : Index) (buffer : GCPointer)
    (b1 b : JSArrayBuffer) (args' : NativeArgs) (idx : Index) :
  dataViewConstructor runtime args = Some (r', RETURNED v) ->
  toIndex runtime (getArg args 1) = (r1, RETURNED offset) ->
  getArg args 0 = HVObject buffer ->
  getArrayBuffer r1 buffer = Some b1 ->
  getArrayBuffer r' buffer = Some b ->
  attached_ b = true ->
  size b1 <= size b ->
  thisArg args' = v ->
  toIndex r' (getArg args' 0) = (r', RETURNED idx) ->
  exists self view,
    v = HVObject self /\ getDataView r' self = Some view
    /\ dataViewPrototypeGet T r' args'
       = if indexValue idx + sizeof T <=? length_ view
         then Some (r', RETURNED (SafeNumericEncoder_encode T
                      (ofBytes (take (Z.to_nat (sizeof T))
                                  (drop (Z.to_nat (indexValue offset + indexValue idx))
                                     (data_ b)))
                         (toBoolean (getArg args' 1)))))
         else Some (r', EXCEPTION OutOfBoundsError_get).
Proof.
  intros Hnew Hoffset Harg Hb1 Hb Hatt Hsize Hthis' Hidx.
  apply dataViewConstructor_returns in Hnew
    as (self & buffer0 & r1' & offset0 & b0 & len & old & Hthis & -> & Harg0 & Hoffset0
        & Hb0 & _ & Hlen & Hsum & _ & ->).
  rewrite Hoffset in Hoffset0. injection Hoffset0 as <- <-.
  rewrite Harg in Harg0. injection Harg0 as <-.
  rewrite Hb1 in Hb0. injection Hb0 as <-.
  pose proof (index_bounds offset) as Hoff. pose proof (index_bounds idx) as Hi.
  pose proof (sizeof_bounds T) as Hs.
  set (view := {| buffer_ := Some buffer; offset_ := indexValue offset; length_ := len |})
    in *.
  set (rn := {| heap := <[self := DataViewCell view]>
                          (heap (coercedByConstructor runtime args)) |}) in *.
  assert (Hview : getDataView rn self = Some view) by apply getDataView_insert_view.
  assert (Hdyn : dyncastThis_JSDataView rn args' = Some self).
  { unfold dyncastThis_JSDataView. rewrite Hthis', Hview. reflexivity. }
  exists self, view. split; [reflexivity|]. split; [exact Hview|].
  unfold dataViewPrototypeGet. rewrite Hdyn, Hidx, Hview. simpl.
  rewrite (attached_true rn view buffer b eq_refl Hb), Hatt. simpl.
  rewrite uint64_add_index.
  destruct (Z.leb_spec (indexValue idx + sizeof T) len).
  - rewrite gtb_false by lia.
    rewrite (JSDataView_get_inside T rn view buffer b); try assumption; try reflexivity.
    + simpl. lia.
    + simpl. lia.
  - rewrite gtb_true by lia. reflexivity.
Qed.

End Safety.

End DataViewSafety.

(** ** Part VII: the guarantees at concrete calls *)

Module DataViewSafetyExamples.
Import DataView Scenario DataViewFacts DataViewSafety.

Lemma heapOK_runtime0 : heapOK runtime0.
Proof.
  unfold heapOK.
  unshelve eapply bool_decide_unpack; try typeclasses eauto.
  vm_compute. exact I.
Qed.

Lemma heapOK_detached : heapOK (detach runtime0 1%nat).
Proof.
  unfold heapOK.
  unshelve eapply bool_decide_unpack; try typeclasses eauto.
  vm_compute. exact I.
Qed.

(** getUint16 at the largest index there is: the sum does not wrap, the
    access is rejected. *)
Lemma bounds_check_exact_witness :
  dataViewPrototypeGet (H := host0) Uint16 runtime0
    (call (HVObject 4%nat) [n (2 ^ 53 - 1)])
  = Some (runtime0, EXCEPTION OutOfBoundsError_get).
Proof.
  assert (Hin : viewInBuffer wholeView buffer8) by (repeat split; vm_compute; discriminate).
  exact (proj1 (bounds_check_exact (H := host0) Uint16 runtime0
                  (call (HVObject 4%nat) [n (2 ^ 53 - 1)]) 4%nat runtime0 indexMax
                  eq_refl eq_refl)
           wholeView 1%nat buffer8 eq_refl eq_refl eq_refl eq_refl Hin).
Defined.

Lemma get_reads_inside_window_witness :
  exists self view p b pos bytes,
    thisArg (call (HVObject 2%nat) [n 2]) = HVObject self
    /\ getDataView runtimeTail self = Some view
    /\ buffer_ view = Some p /\ getArrayBuffer runtimeTail p = Some b
    /\ attached_ b = true
    /\ offset_ view <= Z.of_nat pos
    /\ Z.of_nat pos + sizeof Uint16 <= offset_ view + length_ view
    /\ sublist_lookup pos (Z.to_nat (sizeof Uint16)) (data_ b) = Some bytes
    /\ n 0x0506
       = SafeNumericEncoder_encode (Host := host0) Uint16
           (ofBytes bytes (toBoolean (Host := host0)
                             (getArg (call (HVObject 2%nat) [n 2]) 1))).
Proof.
  apply (get_reads_inside_window (H := host0) Uint16 runtimeTail
           (call (HVObject 2%nat) [n 2]) runtimeTail (n 0x0506)).
  reflexivity.
Defined.

Lemma set_writes_inside_window_witness :
  exists self view p b b',
    thisArg (call (HVObject 4%nat) [n 6; n (-2)]) = HVObject self
    /\ getDataView (coercedBySet (H := host0) runtime0
                      (call (HVObject 4%nat) [n 6; n (-2)])) self = Some view
    /\ buffer_ view = Some p
    /\ getArrayBuffer (coercedBySet (H := host0) runtime0
                         (call (HVObject 4%nat) [n 6; n (-2)])) p = Some b
    /\ getArrayBuffer runtimeAfterSet p = Some b'
    /\ attached_ b = true /\ attached_ b' = true
    /\ length (data_ b') = length (data_ b)
    /\ (forall i : nat,
          Z.of_nat i < offset_ view \/ offset_ view + length_ view <= Z.of_nat i ->
          data_ b' !! i = data_ b !! i)
    /\ (forall q, q <> p ->
          heap runtimeAfterSet !! q
          = heap (coercedBySet (H := host0) runtime0
                    (call (HVObject 4%nat) [n 6; n (-2)])) !! q).
Proof.
  apply (set_writes_inside_window (H := host0) Int16 runtime0
           (call (HVObject 4%nat) [n 6; n (-2)]) runtimeAfterSet HVUndefined).
  reflexivity.
Defined.

(** setInt16(6, -2), then getInt16(6): -2. *)
Lemma set_then_get_witness :
  dataViewPrototypeGet (H := host0) Int16 runtimeAfterSet (call (HVObject 4%nat) [n 6])
  = Some (runtimeAfterSet, RETURNED (n (-2))).
Proof.
  apply (set_then_get (H := host0) Int16 runtime0
           (call (HVObject 4%nat) [n 6; n (-2)]) runtimeAfterSet HVUndefined
           runtime0 runtime0 index6 (Some (-2)) (call (HVObject 4%nat) [n 6]) index6);
    reflexivity.
Defined.

(** setInt16(6, -2), then getUint16(0): still 0x0102. *)
Lemma set_keeps_other_elements_witness :
  dataViewPrototypeGet (H := host0) Uint16 runtimeAfterSet (call (HVObject 4%nat) [n 0])
  = Some (runtimeAfterSet, RETURNED (n 0x0102)).
Proof.
  apply (set_keeps_other_elements (H := host0) Int16 Uint16 runtime0
           (call (HVObject 4%nat) [n 6; n (-2)]) runtimeAfterSet HVUndefined
           runtime0 runtime0 index6 (Some (-2)) (call (HVObject 4%nat) [n 0]) index0);
    try reflexivity.
  left. vm_compute. discriminate.
Defined.

Lemma checked_access_is_defined_witness :
  exists res,
    dataViewPrototypeGet (H := host0) Uint16 runtime0 (call (HVObject 4%nat) [n 7])
    = Some (runtime0, res).
Proof.
  apply (proj1 (checked_access_is_defined (H := host0) Uint16 runtime0
                  (call (HVObject 4%nat) [n 7]) 4%nat runtime0 index7 eq_refl eq_refl)
           wholeView 1%nat eq_refl eq_refl heapOK_runtime0).
Defined.

Lemma set_keeps_heap_in_order_witness : heapOK runtimeAfterSet.
Proof.
  apply (set_keeps_heap_in_order (H := host0) Int16 runtime0
           (call (HVObject 4%nat) [n 6; n (-2)]) runtimeAfterSet (RETURNED HVUndefined)).
  - exact heapOK_runtime0.
  - reflexivity.
Defined.

(** `new DataView(buffer, 2)` on the 8-byte buffer, then the accessors. *)
Lemma construct_then_accessors_witness :
  dataViewPrototypeBuffer (H := host0) runtimeTail (call (HVObject 2%nat) [])
    = Some (runtimeTail, RETURNED (HVObject 1%nat))
  /\ dataViewPrototypeByteOffset (H := host0) runtimeTail (call (HVObject 2%nat) [])
    = Some (runtimeTail, RETURNED (n 2))
  /\ dataViewPrototypeByteLength (H := host0) runtimeTail (call (HVObject 2%nat) [])
    = Some (runtimeTail, RETURNED (n 6)).
Proof.
  pose proof (construct_then_accessors (H := host0) runtime0
                (construct (HVObject 2%nat) [HVObject 1%nat; n 2]) runtimeTail
                (HVObject 2%nat) runtime0 index2 buffer8 1%nat
                (call (HVObject 2%nat) [])
                eq_refl eq_refl eq_refl eq_refl eq_refl)
    as (Hbuf & Hoff & Hlen & _).
  split; [exact Hbuf|]. split; [exact Hoff|]. exact (Hlen eq_refl).
Defined.

(** `new DataView(buffer, 0, obj)` with the detaching obj: only cell 2 is
    the constructor's doing. *)
Lemma constructor_touches_one_cell_witness :
  exists self,
    thisArg (construct (HVObject 2%nat) [HVObject 1%nat; n 0; HVObject 3%nat])
    = HVObject self
    /\ @HVObject (@double host0) 2%nat = HVObject self
    /\ forall q, q <> self ->
         heap runtime3 !! q
         = heap (coercedByConstructor (H := host0) runtime0
                   (construct (HVObject 2%nat) [HVObject 1%nat; n 0; HVObject 3%nat])) !! q.
Proof.
  apply (constructor_touches_one_cell (H := host0) runtime0
           (construct (HVObject 2%nat) [HVObject 1%nat; n 0; HVObject 3%nat])
           runtime3 (RETURNED (HVObject 2%nat))).
  reflexivity.
Defined.

(** The same construction: the view of length 8 it stores over the buffer
    it has just seen detached is in order, the buffer being detached. *)
Lemma constructor_keeps_heap_in_order_witness : heapOK runtime3.
Proof.
  apply (constructor_keeps_heap_in_order (H := host0) runtime0
           (construct (HVObject 2%nat) [HVObject 1%nat; n 0; HVObject 3%nat])
           runtime3 (HVObject 2%nat) 1%nat buffer8 detached1).
  - reflexivity.
  - reflexivity.
  - reflexivity.
  - reflexivity.
  - simpl. discriminate.
  - exact heapOK_detached.
Defined.

(** `new DataView(buffer, 2)`, then getUint16(2): bytes 4 and 5 of the
    buffer. *)
Lemma construct_then_get_witness :
  exists self view,
    @HVObject (@double host0) 2%nat = HVObject self
    /\ getDataView runtimeTail self = Some view
    /\ dataViewPrototypeGet (H := host0) Uint16 runtimeTail (call (HVObject 2%nat) [n 2])
       = if indexValue index2 + sizeof Uint16 <=? length_ view
         then Some (runtimeTail, RETURNED (SafeNumericEncoder_encode (Host := host0) Uint16
                      (ofBytes (take (Z.to_nat (sizeof Uint16))
                                  (drop (Z.to_nat (indexValue index2 + indexValue index2))
                                     (data_ buffer8)))
                         (toBoolean (Host := host0)
                            (getArg (call (HVObject 2%nat) [n 2]) 1)))))
         else Some (runtimeTail, EXCEPTION OutOfBoundsError_get).
Proof.
  apply (construct_then_get (H := host0) Uint16 runtime0
           (construct (HVObject 2%nat) [HVObject 1%nat; n 2]) runtimeTail
           (HVObject 2%nat) runtime0 index2 1%nat buffer8 buffer8
           (call (HVObject 2%nat) [n 2]) index2);
    reflexivity.
Defined.

End DataViewSafetyExamples.
